(** * FTCNN: geometry preparation and vector-to-raster mapping

    A shallow embedding of [ftcnn/geometry/polygons.py] and
    [ftcnn/geospacial/mapping.py].

    Conventions of the embedding
    - Python exceptions are values of [exception]; a function that may raise
      returns [result A].
    - Coordinates are exact rationals ([Q]); the rounding of IEEE doubles is
      not modelled.
    - A geometry is a tagged union over the shapely geometry kinds; the
      geometric algorithms of shapely/GEOS (normalize, unions, predicates)
      are an interface ([shapely.Engine]) over which every statement is
      quantified.
    - A row of a data frame is a finite map from column names to Python
      values; a frame is the list of its rows, and its columns are those of
      its rows.
    - A [str] is the string of its characters.  The character classes
      ([isdigit], the white space of [split]) are those of ASCII text, and
      the statements that depend on them are about ASCII text. *)

From Stdlib Require Import Ascii QArith Qminmax Qabs.
From stdpp Require Import base option list strings gmap fin_maps.

Local Open Scope list_scope.

(** ** Exceptions and results *)

Inductive exception : Type :=
| TypeError
| ValueError (msg : string)
| KeyError (key : string)
| IndexError
| AttributeError (attr : string)
| GEOSException
| OSError.

Inductive result (A : Type) : Type :=
| Ok (a : A)
| Err (e : exception).
Arguments Ok {A} a.
Arguments Err {A} e.

#[global] Instance result_ret : MRet result := fun _ a => Ok a.
#[global] Instance result_bind : MBind result := fun _ _ f m =>
  match m with
  | Ok a => f a
  | Err e => Err e
  end.

#[global] Instance result_fmap : FMap result := fun _ _ f m =>
  match m with
  | Ok a => Ok (f a)
  | Err e => Err e
  end.

Definition is_ok {A} (r : result A) : bool :=
  match r with Ok _ => true | Err _ => false end.

#[global] Instance exception_eq_dec : EqDecision exception.
Proof. solve_decision. Defined.

(** ** Geometry data model *)

Definition Coord : Type := (Q * Q)%type.
Definition Ring : Type := list Coord.

Record Polygon : Type := mkPolygon {
  exterior : Ring;
  interiors : list Ring
}.

(** The shapely geometry kinds.  [Polygon()] with no arguments is the empty
    polygon [mkPolygon [] []]. *)
#[warnings="-register-all"] Inductive Geometry : Type :=
| GPoint (cs : list Coord)
| GLineString (cs : list Coord)
| GLinearRing (cs : list Coord)
| GPolygon (p : Polygon)
| GMultiPoint (pts : list Coord)
| GMultiLineString (ls : list (list Coord))
| GMultiPolygon (parts : list Polygon)
| GGeometryCollection (gs : list Geometry).

Definition empty_polygon : Geometry := GPolygon (mkPolygon [] []).

(** [geom.geom_type] *)
Definition geom_type (g : Geometry) : string :=
  match g with
  | GPoint _ => "Point"
  | GLineString _ => "LineString"
  | GLinearRing _ => "LinearRing"
  | GPolygon _ => "Polygon"
  | GMultiPoint _ => "MultiPoint"
  | GMultiLineString _ => "MultiLineString"
  | GMultiPolygon _ => "MultiPolygon"
  | GGeometryCollection _ => "GeometryCollection"
  end.

(** [geom.geoms]: only multi-part kinds have the attribute. *)
Definition geoms (g : Geometry) : result (list Geometry) :=
  match g with
  | GMultiPoint pts => Ok ((fun c => GPoint [c]) <$> pts)
  | GMultiLineString ls => Ok (GLineString <$> ls)
  | GMultiPolygon parts => Ok (GPolygon <$> parts)
  | GGeometryCollection gs => Ok gs
  | _ => Err (AttributeError "geoms")
  end.

(** [geom.is_empty]: the geometry has no coordinates. *)
Fixpoint is_empty (g : Geometry) : bool :=
  match g with
  | GPoint cs | GLineString cs | GLinearRing cs => bool_decide (cs = [])
  | GPolygon p => bool_decide (exterior p = [])
  | GMultiPoint pts => bool_decide (pts = [])
  | GMultiLineString ls => forallb (fun l => bool_decide (l = [])) ls
  | GMultiPolygon parts => forallb (fun p => bool_decide (exterior p = [])) parts
  | GGeometryCollection gs => forallb is_empty gs
  end.

(** [shapely.get_parts] on one geometry: the parts of a multi-part geometry,
    the geometry itself otherwise. *)
Definition get_parts (g : Geometry) : list Geometry :=
  match geoms g with
  | Ok gs => gs
  | Err _ => [g]
  end.

#[global] Instance Q_eq_dec : EqDecision Q.
Proof. solve_decision. Defined.

#[global] Instance Polygon_eq_dec : EqDecision Polygon.
Proof. solve_decision. Defined.

Fixpoint Geometry_eq_dec (a b : Geometry) {struct a} : Decision (a = b).
Proof.
  destruct a as [x|x|x|x|x|x|x|x], b as [y|y|y|y|y|y|y|y];
    try (right; discriminate);
    try (destruct (decide (x = y)) as [->|Hne];
         [left; reflexivity | right; intros [=]; contradiction]).
  destruct (list_eq_dec (dec := Geometry_eq_dec) x y) as [->|Hne];
    [left; reflexivity | right; intros [=]; contradiction].
Defined.
#[global] Instance Geometry_eq : EqDecision Geometry := Geometry_eq_dec.

(** ** Python values

    The dynamically typed values that reach the modelled functions: cells of
    a data frame, and the arguments of [normalize_polygon].  A [pathlib.Path]
    is a value of its own kind: it never compares equal to a [str]. *)

#[warnings="-register-all"] Inductive PyVal : Type :=
| VNone
| VBool (b : bool)
| VInt (z : Z)
| VFloat (q : Q)
| VStr (s : string)
| VPath (p : string)
| VGeom (g : Geometry)
| VTuple (items : list PyVal)
| VList (items : list PyVal).

Fixpoint PyVal_eq_dec (a b : PyVal) {struct a} : Decision (a = b).
Proof.
  destruct a as [|x|x|x|x|x|x|x|x], b as [|y|y|y|y|y|y|y|y];
    try (right; discriminate);
    try (left; reflexivity);
    try (destruct (list_eq_dec (dec := PyVal_eq_dec) x y) as [->|Hne];
         [left; reflexivity | right; intros [=]; contradiction]);
    try (destruct (decide (x = y)) as [->|Hne];
         [left; reflexivity | right; intros [=]; contradiction]).
Defined.
#[global] Instance PyVal_eq : EqDecision PyVal := PyVal_eq_dec.

(** A geometry or [None] as a Python value *)
Definition py_geom (g : option Geometry) : PyVal := from_option VGeom VNone g.

(** A row of a data frame ([pandas.Series] indexed by column name) and a
    Python [dict] with string keys. *)
Abbreviation Row := (gmap string PyVal).

Record GeoDataFrame : Type := mkGeoDataFrame {
  gdf_rows : list Row;
  gdf_geometry_name : string;     (* the active geometry column *)
  gdf_crs : option string
}.

(** Loop with early exit on an exception. *)
Fixpoint result_fold {A S : Type} (f : S → A → result S) (s : S) (l : list A)
  : result S :=
  match l with
  | [] => Ok s
  | x :: l' => s' ← f s x; result_fold f s' l'
  end.

(** ** The geometry library

    The operations of shapely (GEOS) that the code calls.  [coverage_union]
    is documented to be defined on non-overlapping input only and may fail
    on other input, hence its [result]; the other operations are taken to
    return.  [bounds] is read on geometries that are not empty only: the
    bounds of an empty geometry are not numbers. *)
Module shapely.
Class Engine : Type := {
  normalize : Geometry → Geometry;
  unary_union : list Geometry → Geometry;
  coverage_union : Geometry → Geometry → result Geometry;
  equals : Geometry → Geometry → bool;
  bounds : Geometry → Q * Q * Q * Q;
  box : Q → Q → Q → Q → Geometry;
  simplify : Geometry → Q → bool → Geometry;
  intersects : Geometry → Geometry → bool;
  intersection : Geometry → Geometry → Geometry
}.
End shapely.

(** ** [ftcnn/geometry/polygons.py]: boxes and decomposition *)

Section Polygons.
Context `{E : shapely.Engine}.

(** [normalize] of [shapely.box] applied to the four [geom.bounds].  The
    bounds of an empty geometry are four NaN, of which [shapely.box] makes
    [None], and [normalize] hands [None] back as it is. *)
Definition bbox_of (geom : Geometry) : option Geometry :=
  if is_empty geom then None
  else
    let '(minx, miny, maxx, maxy) := shapely.bounds geom in
    Some (shapely.normalize (shapely.box minx miny maxx maxy)).

(** [get_polygon_points]: the points of a polygon, or one list of points for
    every part. *)
Definition get_polygon_points (polygon : Geometry)
  : result (list Coord + list (list Coord)) :=
  match polygon with
  | GPolygon p => Ok (inl (exterior p))
  | GMultiPolygon parts => Ok (inr (exterior <$> parts))
  | _ => Err (ValueError "Unknown geometry type")
  end.

(** [get_polygon_bboxes]: the list of boxes and the lines printed. *)
Definition get_polygon_bboxes (geom : Geometry)
  : list (option Geometry) * list string :=
  match geom with
  | GPolygon _ => ([bbox_of geom], [])
  | GMultiPolygon parts => (bbox_of <$> (GPolygon <$> parts), [])
  | _ => ([], ["Unknown geometry type"])
  end.

(** The innermost loop of the merge: the first part of the coverage union
    that equals neither the accumulated shape nor the candidate. *)
Fixpoint first_genuine_part (flat polygon : Geometry) (parts : list Geometry)
  : option Geometry :=
  match parts with
  | [] => None
  | poly :: parts' =>
      if shapely.equals poly flat || shapely.equals poly polygon
      then first_genuine_part flat polygon parts'
      else Some poly
  end.

(** [for i, flat in enumerate(flattened)]: [pending] is what is left of the
    enumeration, [i] the index of its head.  Returns the list and [found]. *)
Fixpoint merge_scan (polygon : Geometry) (flattened : list Geometry)
    (i : nat) (pending : list Geometry) : result (list Geometry * bool) :=
  match pending with
  | [] => Ok (flattened, false)
  | flat :: pending' =>
      union ← shapely.coverage_union flat polygon;
      parts ← geoms union;
      match first_genuine_part flat polygon parts with
      | Some poly => Ok (<[i := poly]> flattened, true)
      | None => merge_scan polygon flattened (S i) pending'
      end
  end.

(** One iteration of [for polygon in [normalize(p) for p in geom.geoms]]. *)
Definition merge_step (flattened : list Geometry) (polygon : Geometry)
  : result (list Geometry) :=
  if decide (length flattened = 0%nat) then Ok (flattened ++ [polygon])
  else
    '(flattened', found) ← merge_scan polygon flattened 0 flattened;
    if found : bool then Ok flattened' else Ok (flattened' ++ [polygon]).

Definition get_geom_polygons (geom : Geometry) (flatten : bool)
  : result (list Geometry) :=
  match geom with
  | GPolygon _ => Ok [shapely.normalize geom]
  | GMultiPolygon parts =>
      let normalized := shapely.normalize <$> (GPolygon <$> parts) in
      if negb flatten then Ok normalized
      else result_fold merge_step [] normalized
  | _ => Err (ValueError "Unknown geometry type")
  end.
End Polygons.

(** ** Raster tiles

    [affine.Affine], [rasterio.windows.Window] and the attributes of an open
    raster dataset that the code reads. *)
Module rasterio.
Record Affine : Type := mkAffine { a : Q; b : Q; c : Q; d : Q; e : Q; f : Q }.

Record Window : Type := mkWindow {
  col_off : Z; row_off : Z; width : Z; height : Z
}.

Record Dataset : Type := mkDataset {
  ds_width : Z; ds_height : Z; transform : Affine
}.

(** [t * (x, y)] *)
Definition apply (t : Affine) (p : Coord) : Coord :=
  let '(vx, vy) := p in
  (vx * a t + vy * b t + c t, vx * d t + vy * e t + f t)%Q.

(** [src.window_transform(window)]: the dataset transform with its origin
    moved to the window's upper left corner.  The new origin is written in
    exact arithmetic; for a window at offset (0, 0) it is the origin of the
    dataset in floating point as well, since only products with zero and
    sums with zero are involved. *)
Definition window_transform (src : Dataset) (window : Window) : Affine :=
  let t := transform src in
  let '(x, y) := apply t (inject_Z (col_off window), inject_Z (row_off window)) in
  mkAffine (a t) (b t) x (d t) (e t) y.

Definition identity : Affine := mkAffine 1 0 0 0 1 0.
End rasterio.

(** The transform is rebuilt from the coefficients of the window transform,
    which gives the same transform; [Polygon] takes the ring as it is. *)
Definition create_tile_polygon (src : rasterio.Dataset)
    (tile_window : rasterio.Window) : Geometry :=
  let tile_transform := rasterio.window_transform src tile_window in
  let width := inject_Z (rasterio.width tile_window) in
  let height := inject_Z (rasterio.height tile_window) in
  GPolygon (mkPolygon
    [ rasterio.apply tile_transform (0, 0);
      rasterio.apply tile_transform (width, 0);
      rasterio.apply tile_transform (width, height);
      rasterio.apply tile_transform (0, height);
      rasterio.apply tile_transform (0, 0) ]%Q
    []).

(** ** Python string methods

    On ASCII text, which is what [isascii] selects: there the digits are
    the characters 0 to 9 and the white space of [split] is made of the
    characters 9 to 13 and 28 to 32. *)
Module pystr.
(** [s.isascii()] *)
Fixpoint isascii (s : string) : bool :=
  match s with
  | EmptyString => true
  | String ch s' => (nat_of_ascii ch <? 128)%nat && isascii s'
  end.

(** [ch.isdigit()] for an ASCII character *)
Definition isdigit (ch : Ascii.ascii) : bool := bool_decide (is_Some (Ascii.is_nat ch)).

(** [ch.isspace()] for an ASCII character *)
Definition isspace (ch : Ascii.ascii) : bool :=
  let n := nat_of_ascii ch in
  ((9 <=? n)%nat && (n <=? 13)%nat) || ((28 <=? n)%nat && (n <=? 32)%nat).

(** [s.split()] without a separator: the fields between runs of white
    space.  [cur] is the current field, reversed, when one is open. *)
Fixpoint fields_go (cur : option string) (s : string) : list string :=
  match s with
  | EmptyString => option_list (String.rev <$> cur)
  | String ch s' =>
      if isspace ch
      then option_list (String.rev <$> cur) ++ fields_go None s'
      else fields_go (Some (String ch (default EmptyString cur))) s'
  end.
Definition fields (s : string) : list string := fields_go None s.

(** [s[i].isdigit()] for an index inside the string *)
Definition isdigit_at (s : string) (i : Z) : bool :=
  match String.get (Z.to_nat i) s with
  | Some ch => isdigit ch
  | None => false
  end.

(** [s[start : stop]] for non-negative bounds *)
Definition slice (s : string) (start stop : Z) : string :=
  String.substring (Z.to_nat start) (Z.to_nat (stop - start)) s.

(** [s.split(sep)] for a non-empty separator.  [skip] counts the characters
    of a separator that has just been matched and are still to be passed
    over; [cur] is the current field, reversed. *)
Fixpoint split_go (sep : string) (skip : nat) (cur : string) (s : string)
  : list string :=
  match s with
  | EmptyString => [String.rev cur]
  | String ch s' =>
      match skip with
      | S k => split_go sep k cur s'
      | O =>
          if String.prefix sep s
          then String.rev cur :: split_go sep (String.length sep - 1) EmptyString s'
          else split_go sep 0 (String ch cur) s'
      end
  end.
Definition split (sep s : string) : list string := split_go sep 0 EmptyString s.

(** [s.replace(old, "")] for a non-empty [old] *)
Fixpoint remove_go (old : string) (skip : nat) (s : string) : string :=
  match s with
  | EmptyString => EmptyString
  | String ch s' =>
      match skip with
      | S k => remove_go old k s'
      | O =>
          if String.prefix old s
          then remove_go old (String.length old - 1) s'
          else String ch (remove_go old 0 s')
      end
  end.
Definition remove (old s : string) : string := remove_go old 0 s.

(** [sub in s] *)
Fixpoint contains (sub s : string) : bool :=
  String.prefix sub s ||
  match s with
  | EmptyString => false
  | String _ s' => contains sub s'
  end.
End pystr.

(** ** [ftcnn/geometry/polygons.py]: the normalizer *)

Section Normalizer.
Context `{E : shapely.Engine}.
(** Python's [float(str)]; [None] stands for its [ValueError]. *)
Variable py_float : string → option Q.

(** The condition of the [while] loop of [parse_polygon_str] *)
Definition strip_continues (polygon_str : string) (size start end_ : Z) : bool :=
  ((start <? end_)%Z && (start <? size)%Z && (0 <=? end_)%Z
   && negb (pystr.isdigit_at polygon_str start
            && pystr.isdigit_at polygon_str end_))%bool.

(** The loop itself, which moves [start] and [end] inwards until both
    index a digit.  Every iteration moves at least one of the two, so
    [len(polygon_str)] iterations are enough. *)
Fixpoint strip_bounds (fuel : nat) (polygon_str : string) (size start end_ : Z)
  : Z * Z :=
  match fuel with
  | O => (start, end_)
  | S fuel' =>
      if strip_continues polygon_str size start end_ then
        let start' := if pystr.isdigit_at polygon_str start
                      then start else (start + 1)%Z in
        let end' := if pystr.isdigit_at polygon_str end_
                    then end_ else (end_ - 1)%Z in
        strip_bounds fuel' polygon_str size start' end'
      else (start, end_)
  end.

(** The body of [for point in points] *)
Definition parse_point (point : string) : result PyVal :=
  let point := pystr.remove ")" (pystr.remove "(" (pystr.remove " 0" point)) in
  match pystr.fields point with
  | [x; y] =>
      match py_float x, py_float y with
      | Some fx, Some fy => Ok (VTuple [VFloat fx; VFloat fy])
      | _, _ => Err (ValueError "could not convert string to float")
      end
  | _ => Err (ValueError "wrong number of values to unpack")
  end.

Definition parse_polygon_str (polygon_str : string) : result PyVal :=
  let size := Z.of_nat (String.length polygon_str) in
  let '(start, end_) :=
    strip_bounds (String.length polygon_str) polygon_str size 0 (size - 1) in
  let polygon_str :=
    if ((start <? size)%Z && (0 <=? end_)%Z)%bool
    then pystr.slice polygon_str start (end_ + 1)
    else polygon_str in
  VList <$> mapM parse_point (pystr.split ", " polygon_str).

(** [[(polygon[i], polygon[i + 1]) for i in range(len(polygon) - 1)]] *)
Definition pair_windows (polygon : list PyVal) : list PyVal :=
  omap (fun i => x ← polygon !! i; y ← polygon !! (i + 1)%nat;
                 Some (VTuple [x; y]))
       (seq 0 (length polygon - 1)).

(** [shapely.normalize] on an arbitrary Python object.  It is a vectorised
    function: a geometry is normalized, [None] passes through, a sequence
    is converted to an array and processed element by element, and any
    other element is rejected with a [TypeError].  An array is rendered
    here as a [VList]; it is not a geometry. *)
Fixpoint py_normalize (v : PyVal) : result PyVal :=
  match v with
  | VGeom g => Ok (VGeom (shapely.normalize g))
  | VNone => Ok VNone
  | VTuple items | VList items =>
      VList <$>
        (fix each (items : list PyVal) : result (list PyVal) :=
           match items with
           | [] => Ok []
           | x :: items' =>
               x' ← py_normalize x; rest ← each items'; Ok (x' :: rest)
           end) items
  | _ => Err TypeError
  end.

(** [polygon.simplify(0.002, preserve_topology=True)]: only a geometry has
    the method. *)
Definition py_simplify (v : PyVal) : result PyVal :=
  match v with
  | VGeom g => Ok (VGeom (shapely.simplify g 0.002 true))
  | _ => Err (AttributeError "simplify")
  end.

Definition normalize_polygon (polygon : PyVal) : result PyVal :=
  polygon ←
    match polygon with
    | VGeom (GPolygon _) => Ok polygon
    | _ =>
        polygon ←
          match polygon with
          | VList items =>
              match items with
              | [] => Err IndexError
              | VTuple _ :: _ => Ok polygon
              | _ :: _ => Ok (VList (pair_windows items))
              end
          | VStr s => parse_polygon_str s
          | _ => Ok polygon
          end;
        py_normalize polygon
    end;
  simplified ← py_simplify polygon;
  py_normalize simplified.
End Normalizer.

(** ** Data frames

    The operations of pandas/geopandas that the code calls. *)
Module pandas.
(** [group.iloc[i]] *)
Definition iloc (frame : list Row) (i : nat) : result Row :=
  match frame !! i with
  | Some row => Ok row
  | None => Err IndexError
  end.

(** [series.drop(label)] *)
Definition drop (label : string) (row : Row) : result Row :=
  match row !! label with
  | Some _ => Ok (delete label row)
  | None => Err (KeyError label)
  end.

(** [row[label]] *)
Definition getitem (row : Row) (label : string) : result PyVal :=
  match row !! label with
  | Some v => Ok v
  | None => Err (KeyError label)
  end.

(** [row.get(label, None)] *)
Definition get (row : Row) (label : string) : PyVal := default VNone (row !! label).

(** [frame.geometry]: the geometries of the active geometry column;
    missing values are skipped by the operations applied to them here. *)
Definition geometry (gname : string) (frame : list Row) : list Geometry :=
  omap (fun row => match row !! gname with
                   | Some (VGeom g) => Some g
                   | _ => None
                   end) frame.

(** The argument [by] of [groupby] *)
Inductive GroupBy : Type :=
| ByNone
| ByColumn (col : string)
| ByColumns (cols : list string).

Definition key_columns (by_ : GroupBy) : result (list string) :=
  match by_ with
  | ByNone => Err TypeError     (* You have to supply one of 'by' and 'level' *)
  | ByColumn col => Ok [col]
  | ByColumns [] => Err (ValueError "No group keys passed!")
  | ByColumns cols => Ok cols
  end.

(** Adds a row to the group of its key, or opens a new group at the end. *)
Fixpoint add_to_group (key : list PyVal) (row : Row)
    (groups : list (list PyVal * list Row)) : list (list PyVal * list Row) :=
  match groups with
  | [] => [(key, [row])]
  | (key', members) :: groups' =>
      if decide (key = key') then (key', members ++ [row]) :: groups'
      else (key', members) :: add_to_group key row groups'
  end.

(** [frame.groupby(by, sort=False)]: groups in the order in which their
    keys are first met, members in frame order; rows with a missing key
    value are left out. *)
Definition groupby (frame : list Row) (by_ : GroupBy)
  : result (list (list PyVal * list Row)) :=
  cols ← key_columns by_;
  result_fold
    (fun groups row =>
       key ← mapM (getitem row) cols;
       if decide (VNone ∈ key) then Ok groups
       else Ok (add_to_group key row groups))
    [] frame.

(** [frame.drop_duplicates()]: the first of equal rows is kept. *)
Definition drop_duplicates {A : Type} `{EqDecision A} (l : list A) : list A :=
  foldl (fun kept x => if decide (x ∈ kept) then kept else kept ++ [x]) [] l.

(** [GeoDataFrame(rows, geometry=geometry, crs=crs)] *)
Definition GeoDataFrame_of (rows : list Row) (geometry : list PyVal)
    (crs : option string) : GeoDataFrame :=
  mkGeoDataFrame
    (zip_with (fun row g => <["geometry" := g]> row) rows geometry)
    "geometry" crs.

(** [frame.explode()]: one row for each part of the row's geometry. *)
Definition explode (gdf : GeoDataFrame) : GeoDataFrame :=
  let gname := gdf_geometry_name gdf in
  mkGeoDataFrame
    (row ← gdf_rows gdf;
     match row !! gname with
     | Some (VGeom g) => (fun part => <[gname := VGeom part]> row) <$> get_parts g
     | _ => []
     end)
    gname (gdf_crs gdf).
End pandas.

(** ** [flatten_polygons]

    The row dictionaries are Python objects that the loop appends several
    times and updates in between; [fs_heap] holds the objects and [fs_rows]
    the references appended to [rows]. *)
Record FlattenState : Type := mkFlattenState {
  fs_heap : list Row;
  fs_rows : list nat;
  fs_geometry : list Geometry;
  fs_stdout : list string
}.

Section Flatten.
Context `{E : shapely.Engine}.

(** [.to_dict()]: a new dictionary object *)
Definition alloc (row : Row) (st : FlattenState) : nat * FlattenState :=
  (length (fs_heap st),
   mkFlattenState (fs_heap st ++ [row]) (fs_rows st) (fs_geometry st) (fs_stdout st)).

(** The body of [for bbox in ...]: [row["bbox"] = bbox],
    [rows.append(row)], [geometry.append(polygon)]. *)
Definition emit (ref : nat) (polygon : Geometry) (st : FlattenState)
    (bbox : option Geometry) : FlattenState :=
  mkFlattenState
    (alter (insert "bbox" (py_geom bbox)) ref (fs_heap st))
    (fs_rows st ++ [ref])
    (fs_geometry st ++ [polygon])
    (fs_stdout st).

(** [for bbox in get_polygon_bboxes(polygon): ...] *)
Definition emit_bboxes (ref : nat) (polygon : Geometry) (st : FlattenState)
  : FlattenState :=
  let '(bboxes, printed) := get_polygon_bboxes polygon in
  foldl (emit ref polygon)
    (mkFlattenState (fs_heap st) (fs_rows st) (fs_geometry st)
       (fs_stdout st ++ printed))
    bboxes.

(** [group.iloc[i].drop(geometry_column).to_dict()], before the dictionary
    object is made *)
Definition template_row (group : list Row) (i : nat) (geometry_column : string)
  : result Row :=
  pandas.iloc group i ≫= pandas.drop geometry_column.

(** The body of [for i, poly in enumerate(polygon.geoms)].  The normalized
    part [poly] is not used after it is computed: the boxes are those of
    the whole [polygon], and [polygon] is what [geometry] receives. *)
Definition flatten_part (group : list Row) (geometry_column : string)
    (polygon : Geometry) (st : FlattenState) (part : nat * Geometry)
  : result FlattenState :=
  let '(i, poly) := part in
  let poly := shapely.normalize poly in
  row ← template_row group i geometry_column;
  let '(ref, st) := alloc row st in
  Ok (emit_bboxes ref polygon st).

(** The body of [for _, group in gdf_src.groupby(...)] *)
Definition flatten_group (gname geometry_column : string)
    (st : FlattenState) (group : list Row) : result FlattenState :=
  let polygon := shapely.unary_union (pandas.geometry gname group) in
  match polygon with
  | GMultiPolygon parts =>
      result_fold (flatten_part group geometry_column polygon) st
        (imap (fun i poly => (i, poly)) (GPolygon <$> parts))
  | _ =>
      let polygon := shapely.normalize polygon in
      row ← template_row group 0 geometry_column;
      let '(ref, st) := alloc row st in
      Ok (emit_bboxes ref polygon st)
  end.

(** The number of parts of a union: the polygons of a MultiPolygon, one
    otherwise. *)
Definition part_count (union : Geometry) : nat :=
  match union with
  | GMultiPolygon parts => length parts
  | _ => 1%nat
  end.

Definition flatten_polygons_loop (gdf_src : GeoDataFrame)
    (geometry_column : string) (group_by : pandas.GroupBy)
  : result FlattenState :=
  groups ← pandas.groupby (gdf_rows gdf_src) group_by;
  result_fold (flatten_group (gdf_geometry_name gdf_src) geometry_column)
    (mkFlattenState [] [] [] []) (snd <$> groups).

(** The rows as they are when the frame is built: every reference is
    read from the final heap. *)
Definition final_rows (st : FlattenState) : list Row :=
  omap (fun ref => fs_heap st !! ref) (fs_rows st).

Definition flatten_polygons (gdf_src : GeoDataFrame)
    (geometry_column : string) (group_by : pandas.GroupBy)
  : result GeoDataFrame :=
  st ← flatten_polygons_loop gdf_src geometry_column group_by;
  Ok (pandas.GeoDataFrame_of (final_rows st) (VGeom <$> fs_geometry st)
        (gdf_crs gdf_src)).
End Flatten.

(** ** Paths and the file system *)
Module pathlib.
(** Position of the last occurrence of [ch], counted from the start. *)
Fixpoint rfind (ch : Ascii.ascii) (s : string) : option nat :=
  match s with
  | EmptyString => None
  | String ch' s' =>
      match rfind ch s' with
      | Some i => Some (S i)
      | None => if decide (ch = ch') then Some 0%nat else None
      end
  end.

(** [path.name]: the last component *)
Definition name (path : string) : string :=
  match rfind "/"%char path with
  | Some i => String.substring (S i) (String.length path - S i) path
  | None => path
  end.

(** Position of the dot that starts the suffix of a file name. *)
Definition suffix_dot (name : string) : option nat :=
  match rfind "."%char name with
  | Some i =>
      if decide (0 < i < String.length name - 1)%nat then Some i else None
  | None => None
  end.

(** [path.suffix] *)
Definition suffix (path : string) : string :=
  let n := name path in
  match suffix_dot n with
  | Some i => String.substring i (String.length n - i) n
  | None => EmptyString
  end.

(** [path.stem] *)
Definition stem (path : string) : string :=
  let n := name path in
  match suffix_dot n with
  | Some i => String.substring 0 i n
  | None => n
  end.

(** [directory / filename] *)
Definition joinpath (directory filename : string) : string :=
  if String.prefix "/" filename then filename
  else directory +:+ "/" +:+ filename.

(** [os.path.splitext(filename)[0]] *)
Definition splitext_root (filename : string) : string :=
  let n := name filename in
  match rfind "."%char n with
  | Some i =>
      if decide (String.substring 0 i n = String.concat "" (replicate i "."))
      then filename
      else String.substring 0 (String.length filename - (String.length n - i)) filename
  | None => filename
  end.
End pathlib.

(** What [open_fn(path)] yields in [map_metadata]: a [PIL.Image.Image] with
    its [size], or an open raster with its [shape]. *)
Inductive ImageHandle : Type :=
| PILImage (size : Z * Z)
| RasterImage (ds : rasterio.Dataset).

(** The file system and the readers the mapping code goes through.
    [open_raster] ([ftcnn.raster]) and [collect_files_with_suffix]
    ([ftcnn.io]) are helpers of the package that are outside the two modules
    embedded here; like the readers of PIL and rasterio they are taken as
    they come.  The progress bar around the loop over the rasters is left
    out. *)
Class FileSystem : Type := {
  path_exists : string → bool;
  Image_open : string → result ImageHandle;
  open_raster : string → result ImageHandle;
  rasterio_open : string → result rasterio.Dataset;
  collect_files_with_suffix : string → string → bool → list string
}.

(** Modelled from the spec: [ftcnn.raster.create_window], which is not part
    of the sources at hand.  A TileWindow is the pixel-space rectangle
    (col offset, row offset, width, height). *)
Definition create_window (col_off row_off width height : Z) : rasterio.Window :=
  rasterio.mkWindow col_off row_off width height.

(** ** [ftcnn/geospacial/mapping.py] *)

(** The argument [preserve_fields] of [map_metadata].  A Python [dict] keeps
    its keys in insertion order, and the order decides which missing column
    is reported first: a dictionary of names is an association list with
    distinct keys. *)
Inductive PreserveItem : Type :=
| ItemStr (s : string)
| ItemDict (entries : list (string * string))
| ItemOther.

Inductive PreserveFields : Type :=
| FieldsNone
| FieldsDict (entries : list (string * string))
| FieldsList (items : list PreserveItem).

(** [d[k] = v] *)
Fixpoint dict_set (k v : string) (entries : list (string * string))
  : list (string * string) :=
  match entries with
  | [] => [(k, v)]
  | (k', v') :: entries' =>
      if decide (k = k') then (k, v) :: entries'
      else (k', v') :: dict_set k v entries'
  end.

(** [d.update(other)] *)
Definition dict_update (entries other : list (string * string))
  : list (string * string) :=
  foldl (fun acc kv => dict_set kv.1 kv.2 acc) entries other.

(** "Normalize preserve_fields to a single dictionary" *)
Definition make_field_map (preserve_fields : PreserveFields)
  : list (string * string) :=
  match preserve_fields with
  | FieldsNone => []
  | FieldsDict entries => dict_update [] entries
  | FieldsList items =>
      foldl (fun field_map item =>
               match item with
               | ItemStr s => dict_set s s field_map
               | ItemDict entries => dict_update field_map entries
               | ItemOther => field_map
               end) [] items
  end.

Section Mapping.
Context `{E : shapely.Engine} `{FS : FileSystem}.

(** The pluggable [parse_filename] *)
Variable parse_filename : Row → result string.

(** [for new_col, old_col in field_map.items(): ...] *)
Definition copy_fields (field_map : list (string * string)) (row : Row)
    (metadata : Row) : result Row :=
  result_fold
    (fun metadata '(new_col, old_col) =>
       if decide (is_Some (row !! old_col))
       then Ok (<[new_col := pandas.get row old_col]> metadata)
       else Err (KeyError old_col))
    metadata field_map.

(** [open_raster if suffix in [".tiff", ".tif"] else Image.open] *)
Definition open_fn (suffix : string) : string → result ImageHandle :=
  if bool_decide (suffix ∈ [".tiff"; ".tif"]) then open_raster else Image_open.

(** Has [rows] an entry whose ["path"] equals the path object?  The entries
    hold [str(path)], see [map_metadata_row]. *)
Definition path_seen (rows : list Row) (path : string) : bool :=
  existsb (fun r => bool_decide (r !! "path" = Some (VPath path))) rows.

(** The body of [for _, row in gdf_src.iterrows()]; the state is the pair
    of the lists [rows] and [geometry]. *)
Definition map_metadata_row (images_dir : string)
    (field_map : list (string * string))
    (acc : list Row * list PyVal) (row : Row) : result (list Row * list PyVal) :=
  let '(rows, geometry) := acc in
  filename ← parse_filename row;
  let path := pathlib.joinpath images_dir filename in
  if path_exists path then
    if path_seen rows path then Ok acc
    else
      let suffix := pathlib.suffix path in
      img ← open_fn suffix path;
      let '(width, height) :=
        match img with
        | PILImage size => size
        | RasterImage ds => (rasterio.ds_width ds, rasterio.ds_height ds)
        end in
      let metadata : Row :=
        <["bbox" := pandas.get row "bbox"]>
        (<["height" := VInt height]>
         (<["width" := VInt width]>
          (<["path" := VStr path]>
           (<["filename" := VStr filename]> ∅)))) in
      metadata ← copy_fields field_map row metadata;
      Ok (rows ++ [metadata], geometry ++ [pandas.get row "geometry"])
  else Ok acc.

Definition map_metadata (gdf_src : GeoDataFrame) (images_dir : string)
    (preserve_fields : PreserveFields) : result GeoDataFrame :=
  let field_map := make_field_map preserve_fields in
  '(rows, geometry) ←
    result_fold (map_metadata_row images_dir field_map) ([], [])
      (gdf_rows gdf_src);
  Ok (pandas.GeoDataFrame_of rows geometry (gdf_crs gdf_src)).

(** The helper [compare_stem] of [map_geometry_to_geotiffs] *)
Definition compare_stem (stem : string) (names : list string) : bool :=
  existsb (fun name =>
             pystr.contains
               (String.substring 0 (String.length name) stem) name)
          names.

(** [os.path.splitext(filename)[0] for filename in
    gdf["filename"].unique().tolist()].  The column is read off the rows:
    it is missing when a row does not have it.  A frame without any row
    has no column to miss here, so the [KeyError] of such a frame is not
    represented. *)
Definition orig_stems_of (gdf : GeoDataFrame) : result (list string) :=
  column ← mapM (fun row => pandas.getitem row "filename") (gdf_rows gdf);
  mapM (fun v => match v with
                 | VStr filename => Ok (pathlib.splitext_root filename)
                 | _ => Err TypeError
                 end)
       (pandas.drop_duplicates column).

Definition image_paths_of (orig_stems : list string) (img_dir : string)
    (recurse : bool) : list string :=
  filter (fun path => compare_stem (pathlib.stem path) orig_stems)
         (collect_files_with_suffix ".tif" img_dir recurse).

(** Does the row's geometry intersect the tile? ([gdf.intersects]) *)
Definition row_intersects (gname : string) (tile_polygon : Geometry)
    (row : Row) : bool :=
  match row !! gname with
  | Some (VGeom g) => shapely.intersects g tile_polygon
  | _ => false
  end.

(** [polygon_row["geometry"].intersection(tile_polygon)] *)
Definition clip_row (tile_polygon : Geometry) (polygon_row : Row)
  : result PyVal :=
  g ← pandas.getitem polygon_row "geometry";
  match g with
  | VGeom g => Ok (VGeom (shapely.intersection g tile_polygon))
  | _ => Err (AttributeError "intersection")
  end.

(** The polygon of the full extent of an open raster *)
Definition footprint (src : rasterio.Dataset) : Geometry :=
  let tile_window :=
    create_window 0 0 (rasterio.ds_width src) (rasterio.ds_height src) in
  create_tile_polygon src tile_window.

(** The dictionary [row] of a tile *)
Definition tile_row (path : string) (src : rasterio.Dataset) : Row :=
  <["height" := VInt (rasterio.ds_height src)]>
  (<["width" := VInt (rasterio.ds_width src)]>
   (<["path" := VStr path]>
    (<["filename" := VStr (pathlib.name path)]> ∅))).

(** The body of [for path in image_paths] *)
Definition map_tile (gdf : GeoDataFrame) (acc : list Row * list PyVal)
    (path : string) : result (list Row * list PyVal) :=
  let '(rows, geometry) := acc in
  src ← rasterio_open path;
  let tile_polygon := footprint src in
  let intersecting_polygons :=
    filter (fun r => row_intersects (gdf_geometry_name gdf) tile_polygon r)
           (gdf_rows gdf) in
  let row : Row := tile_row path src in
  if decide (intersecting_polygons = []) then
    Ok (rows ++ [row], geometry ++ [VGeom empty_polygon])
  else
    clipped ← mapM (clip_row tile_polygon) intersecting_polygons;
    Ok (rows ++ replicate (length clipped) row, geometry ++ clipped).

Definition map_geometry_to_geotiffs (gdf : GeoDataFrame) (img_dir : string)
    (recurse : bool) : result GeoDataFrame :=
  orig_stems ← orig_stems_of gdf;
  let image_paths := image_paths_of orig_stems img_dir recurse in
  '(rows, geometry) ← result_fold (map_tile gdf) ([], []) image_paths;
  let out := pandas.explode (pandas.GeoDataFrame_of rows geometry (gdf_crs gdf)) in
  Ok (mkGeoDataFrame (pandas.drop_duplicates (gdf_rows out))
        (gdf_geometry_name out) (gdf_crs out)).
End Mapping.

(** ** A reference engine

    An instance of the library interface that is exact on the inputs used
    as test data below: polygons in canonical form that are pairwise
    disjoint, and axis-aligned rectangles for the intersection.  Its
    coverage union dissolves nothing: it hands back the collection of the
    two shapes, which is what GEOS does with two shapes that are disjoint
    and also with two shapes that overlap, overlapping shapes not being a
    coverage. *)
Module boxes.
Definition ring_bounds (r : Ring) : Q * Q * Q * Q :=
  match r with
  | [] => (0, 0, 0, 0)%Q
  | (x0, y0) :: r' =>
      foldl (fun '(minx, miny, maxx, maxy) '(x, y) =>
               (Qmin minx x, Qmin miny y, Qmax maxx x, Qmax maxy y))
            (x0, y0, x0, y0) r'
  end.

Definition polygon_parts (g : Geometry) : list Polygon :=
  match g with
  | GPolygon p => [p]
  | GMultiPolygon parts => parts
  | _ => []
  end.

Definition bounds (g : Geometry) : Q * Q * Q * Q :=
  ring_bounds (p ← polygon_parts g; exterior p).

Definition box (minx miny maxx maxy : Q) : Geometry :=
  GPolygon (mkPolygon
    [(maxx, miny); (maxx, maxy); (minx, maxy); (minx, miny); (maxx, miny)] []).

Definition is_empty (g : Geometry) : bool :=
  bool_decide ((p ← polygon_parts g; exterior p) = []).

(** The common rectangle of the two bounding boxes *)
Definition overlap (g1 g2 : Geometry) : Q * Q * Q * Q :=
  let '(ax0, ay0, ax1, ay1) := bounds g1 in
  let '(bx0, by0, bx1, by1) := bounds g2 in
  (Qmax ax0 bx0, Qmax ay0 by0, Qmin ax1 bx1, Qmin ay1 by1).

Definition intersects (g1 g2 : Geometry) : bool :=
  let '(x0, y0, x1, y1) := overlap g1 g2 in
  negb (is_empty g1) && negb (is_empty g2) && Qle_bool x0 x1 && Qle_bool y0 y1.

Definition intersection (g1 g2 : Geometry) : Geometry :=
  let '(x0, y0, x1, y1) := overlap g1 g2 in box x0 y0 x1 y1.

(** The union of pairwise disjoint polygons is the collection of them. *)
Definition unary_union (gs : list Geometry) : Geometry :=
  match gs ≫= polygon_parts with
  | [] => GGeometryCollection []
  | [p] => GPolygon p
  | parts => GMultiPolygon parts
  end.

#[local] Instance engine : shapely.Engine := {|
  shapely.normalize := id;
  shapely.unary_union := unary_union;
  shapely.coverage_union := fun g1 g2 => Ok (unary_union [g1; g2]);
  shapely.equals := fun g1 g2 => bool_decide (g1 = g2);
  shapely.bounds := bounds;
  shapely.box := box;
  shapely.simplify := fun g _ _ => g;
  shapely.intersects := intersects;
  shapely.intersection := intersection
|}.

(** The same engine, except that the coverage union of any two shapes is
    the single polygon [merged]: what GEOS returns for two polygons that
    share an edge, [merged] being the two without that edge. *)
Definition merging_engine (merged : Polygon) : shapely.Engine := {|
  shapely.normalize := id;
  shapely.unary_union := unary_union;
  shapely.coverage_union := fun _ _ => Ok (GPolygon merged);
  shapely.equals := fun g1 g2 => bool_decide (g1 = g2);
  shapely.bounds := bounds;
  shapely.box := box;
  shapely.simplify := fun g _ _ => g;
  shapely.intersects := intersects;
  shapely.intersection := intersection
|}.
End boxes.

(** ** Test data *)

(** Twice the signed area of a closed ring (shoelace formula) *)
Fixpoint ring_area2 (r : Ring) : Q :=
  match r with
  | (x1, y1) :: (((x2, y2) :: _) as r') => (x1 * y2 - x2 * y1 + ring_area2 r')%Q
  | _ => 0%Q
  end.

Definition polygon_area (p : Polygon) : Q :=
  (Qabs (ring_area2 (exterior p)) / 2
   - foldr Qplus 0 ((fun h => Qabs (ring_area2 h) / 2) <$> interiors p))%Q.

Definition square_a : Polygon :=
  mkPolygon [(0, 0); (2, 0); (2, 2); (0, 2); (0, 0)]%Q [].
Definition square_b : Polygon :=
  mkPolygon [(1, 1); (3, 1); (3, 3); (1, 3); (1, 1)]%Q [].
(** The union of the two overlapping squares *)
Definition squares_union : Polygon :=
  mkPolygon [(0, 0); (2, 0); (2, 1); (3, 1); (3, 3); (1, 3); (1, 2); (0, 2); (0, 0)]%Q [].

(** The unit square to the right of [unit_a], with which it shares an edge,
    and the rectangle that the two make *)
Definition unit_right : Polygon :=
  mkPolygon [(2, 0); (2, 1); (1, 1); (1, 0); (2, 0)]%Q [].
Definition units_rectangle : Polygon :=
  mkPolygon [(2, 0); (2, 1); (0, 1); (0, 0); (2, 0)]%Q [].

(** Two unit squares far apart *)
Definition unit_a : Polygon :=
  mkPolygon [(1, 0); (1, 1); (0, 1); (0, 0); (1, 0)]%Q [].
Definition unit_b : Polygon :=
  mkPolygon [(6, 5); (6, 6); (5, 6); (5, 5); (6, 5)]%Q [].

(** A frame of two records of one site, and a frame whose only record is a
    two-part geometry. *)
Definition record (site : string) (g : Geometry) : Row :=
  <["filename" := VStr (site +:+ ".tif")]>
  (<["geometry" := VGeom g]> (<["site" := VStr site]> ∅)).

Definition two_records : GeoDataFrame :=
  mkGeoDataFrame [record "s1" (GPolygon unit_a); record "s1" (GPolygon unit_b)]
    "geometry" (Some "EPSG:4326").

Definition one_multipart_record : GeoDataFrame :=
  mkGeoDataFrame [record "s1" (GMultiPolygon [unit_a; unit_b])]
    "geometry" (Some "EPSG:4326").

(** A directory with two rasters of 10 by 10 pixels: [s1.tif] at the origin
    and [s1_far.tif] a hundred units away, both with unit pixels. *)
Definition tile_at (x y : Q) : rasterio.Dataset :=
  rasterio.mkDataset 10 10 (rasterio.mkAffine 1 0 x 0 1 y).

#[local] Instance two_tiles : FileSystem := {|
  path_exists := fun path => bool_decide (path ∈ ["/img/s1.tif"; "/img/s1_far.tif"]);
  Image_open := fun _ => Err OSError;
  open_raster := fun path =>
    if decide (path = "/img/s1.tif") then Ok (RasterImage (tile_at 0 0))
    else if decide (path = "/img/s1_far.tif") then Ok (RasterImage (tile_at 100 100))
    else Err OSError;
  rasterio_open := fun path =>
    if decide (path = "/img/s1.tif") then Ok (tile_at 0 0)
    else if decide (path = "/img/s1_far.tif") then Ok (tile_at 100 100)
    else Err OSError;
  collect_files_with_suffix := fun _ _ _ => ["/img/s1.tif"; "/img/s1_far.tif"]
|}.

(** A [float] for the examples: unsigned whole numbers in decimal digits. *)
Fixpoint digits_value (acc : Z) (s : string) : option Z :=
  match s with
  | EmptyString => Some acc
  | String ch s' =>
      match Ascii.is_nat ch with
      | Some digit => digits_value (10 * acc + Z.of_nat digit) s'
      | None => None
      end
  end.

Definition whole_number_float (s : string) : option Q :=
  match s with
  | EmptyString => None
  | _ => inject_Z <$> digits_value 0 s
  end.

(** A [parse_filename] that reads the column [filename]. *)
Definition filename_column (row : Row) : result string :=
  match row !! "filename" with
  | Some (VStr s) => Ok s
  | Some _ => Err TypeError
  | None => Err (KeyError "filename")
  end.


(** ** Vocabulary of the statements about the mapping *)

Section MappingVocabulary.
Context `{E : shapely.Engine} `{FS : FileSystem}.
Variable parse_filename : Row → result string.

(** The source columns that the normalized field map reads *)
Definition preserved_columns (preserve_fields : PreserveFields) : list string :=
  (make_field_map preserve_fields).*2.

(** Does the loop of [map_metadata] get to the field check for [row],
    [rows] being the list built so far?  It does when the file name is
    derived, the file exists, the path is not taken as seen and the image
    opens. *)
Definition reaches_field_check (images_dir : string) (rows : list Row)
    (row : Row) : bool :=
  match parse_filename row with
  | Ok filename =>
      let path := pathlib.joinpath images_dir filename in
      path_exists path && negb (path_seen rows path)
      && is_ok (open_fn (pathlib.suffix path) path)
  | Err _ => false
  end.

(** What the clipping loop appends for one record *)
Definition clip_of (tile_polygon : Geometry) (polygon_row : Row) : PyVal :=
  match polygon_row !! "geometry" with
  | Some (VGeom g) => VGeom (shapely.intersection g tile_polygon)
  | _ => VNone
  end.

(** The pairs (row, geometry) that the loop appends for one tile *)
Definition tile_pairs (gdf : GeoDataFrame) (path : string) : list (Row * PyVal) :=
  match rasterio_open path with
  | Ok src =>
      let hits := filter (fun r => row_intersects (gdf_geometry_name gdf)
                                     (footprint src) r) (gdf_rows gdf) in
      if decide (hits = []) then [(tile_row path src, VGeom empty_polygon)]
      else (fun r => (tile_row path src, clip_of (footprint src) r)) <$> hits
  | Err _ => []
  end.

(** The rows of the exploded frame *)
Definition exploded (gdf : GeoDataFrame) (paths : list string) : list Row :=
  gdf_rows (pandas.explode
    (pandas.GeoDataFrame_of (paths ≫= tile_pairs gdf).*1
       (paths ≫= tile_pairs gdf).*2 (gdf_crs gdf))).
End MappingVocabulary.

(** ** Vocabulary of the further statements *)

(** The reference engine, except that the coverage union of [square_a] with
    anything is reported as a collection whose only part is the union of the
    two overlapping squares. *)
Definition overlap_engine : shapely.Engine := {|
  shapely.normalize := id;
  shapely.unary_union := boxes.unary_union;
  shapely.coverage_union := fun g1 g2 =>
    if decide (g1 = GPolygon square_a) then Ok (GMultiPolygon [squares_union])
    else Ok (boxes.unary_union [g1; g2]);
  shapely.equals := fun g1 g2 => bool_decide (g1 = g2);
  shapely.bounds := boxes.bounds;
  shapely.box := boxes.box;
  shapely.simplify := fun g _ _ => g;
  shapely.intersects := boxes.intersects;
  shapely.intersection := boxes.intersection
|}.

Section MergeVocabulary.
Context `{E : shapely.Engine}.
(** The coverage union of the two shapes returns, and none of its parts is
    new: every part equals one of the two. *)
Definition no_merge (flat polygon : Geometry) : Prop :=
  ∃ union parts,
    shapely.coverage_union flat polygon = Ok union
    ∧ geoms union = Ok parts
    ∧ first_genuine_part flat polygon parts = None.
End MergeVocabulary.

(** No character of the string is a digit. *)
Fixpoint no_digit (s : string) : bool :=
  match s with
  | EmptyString => true
  | String ch s' => negb (pystr.isdigit ch) && no_digit s'
  end.

(** The first and the last character of the string are digits. *)
Definition digit_bounded (s : string) : bool :=
  pystr.isdigit_at s 0
  && pystr.isdigit_at s (Z.of_nat (String.length s) - 1).

(** A pair of floats, as [parse_polygon_str] makes them *)
Definition is_float_pair (v : PyVal) : Prop :=
  ∃ x y, v = VTuple [VFloat x; VFloat y].

Section ParserVocabulary.
Variable py_float : string → option Q.

(** The strings that the loop of [parse_polygon_str] goes through: the
    pieces between the separators of what the stripping loop leaves. *)
Definition coordinate_tokens (polygon_str : string) : list string :=
  let size := Z.of_nat (String.length polygon_str) in
  let '(start, end_) :=
    strip_bounds (String.length polygon_str) polygon_str size 0 (size - 1) in
  pystr.split ", "
    (if ((start <? size)%Z && (0 <=? end_)%Z)%bool
     then pystr.slice polygon_str start (end_ + 1)
     else polygon_str).

(** Once every blank followed by a zero and every parenthesis is taken
    out, the token is made of two fields, and both read as a float. *)
Definition is_coordinate_pair (point : string) : Prop :=
  ∃ x y,
    pystr.fields (pystr.remove ")" (pystr.remove "(" (pystr.remove " 0" point)))
      = [x; y]
    ∧ is_Some (py_float x) ∧ is_Some (py_float y).
End ParserVocabulary.

Section MetadataVocabulary.
Context `{FS : FileSystem}.
Variable parse_filename : Row → result string.

(** Is there a file for the row under [images_dir]? *)
Definition has_file (images_dir : string) (row : Row) : bool :=
  match parse_filename row with
  | Ok filename => path_exists (pathlib.joinpath images_dir filename)
  | Err _ => false
  end.

(** The image of the row's file can be opened and the row has every column
    that the field map reads. *)
Definition row_ready (images_dir : string) (field_map : list (string * string))
    (row : Row) : Prop :=
  ∃ filename,
    parse_filename row = Ok filename
    ∧ (path_exists (pathlib.joinpath images_dir filename) = true →
       is_ok (open_fn (pathlib.suffix (pathlib.joinpath images_dir filename))
                (pathlib.joinpath images_dir filename)) = true
       ∧ ∀ col, col ∈ field_map.*2 → is_Some (row !! col)).
End MetadataVocabulary.

Definition is_multipolygon (g : Geometry) : bool :=
  match g with GMultiPolygon _ => true | _ => false end.

(** Equality of coordinates as rational numbers *)
Definition coord_eq (p q : Coord) : Prop := (p.1 == q.1 ∧ p.2 == q.2)%Q.

(** Every reference appended to [rows] points into the heap. *)
Definition refs_valid (st : FlattenState) : Prop :=
  Forall (fun ref => ref < length (fs_heap st))%nat (fs_rows st).

Section FlattenVocabulary.
Context `{E : shapely.Engine}.

(** The row and the geometry that the single-part branch of
    [flatten_polygons] adds for a group: nothing when the normalized union
    is not a polygon. *)
Definition single_part_entry (gname geometry_column : string) (group : list Row)
  : list (Row * Geometry) :=
  let polygon :=
    shapely.normalize (shapely.unary_union (pandas.geometry gname group)) in
  match polygon, group with
  | GPolygon _, first :: _ =>
      [(<["bbox" := py_geom (bbox_of polygon)]> (delete geometry_column first),
        polygon)]
  | _, _ => []
  end.

(** Neither the union of the group nor its normal form is a MultiPolygon. *)
Definition single_part_group (gname : string) (group : list Row) : Prop :=
  let union := shapely.unary_union (pandas.geometry gname group) in
  is_multipolygon union = false
  ∧ is_multipolygon (shapely.normalize union) = false.
End FlattenVocabulary.

(** A record of a site of which the directory has no raster *)
Definition other_site : GeoDataFrame :=
  mkGeoDataFrame [record "q9" (GPolygon unit_a)] "geometry" (Some "EPSG:4326").

(** Two records of two sites, one unit square each *)
Definition two_sites : GeoDataFrame :=
  mkGeoDataFrame [record "s1" (GPolygon unit_a); record "s2" (GPolygon unit_b)]
    "geometry" (Some "EPSG:4326").

(** A directory in which the second raster cannot be read *)
#[local] Instance one_broken_tile : FileSystem := {|
  path_exists := fun path => bool_decide (path ∈ ["/img/s1.tif"; "/img/s1_bad.tif"]);
  Image_open := fun _ => Err OSError;
  open_raster := fun _ => Err OSError;
  rasterio_open := fun path =>
    if decide (path = "/img/s1.tif") then Ok (tile_at 0 0) else Err OSError;
  collect_files_with_suffix := fun _ _ _ => ["/img/s1.tif"; "/img/s1_bad.tif"]
|}.


(** * Properties *)

(** ** The result monad *)

Lemma result_fold_app {A S : Type} (f : S → A → result S) (s : S) (l1 l2 : list A) :
  result_fold f s (l1 ++ l2) = (s' ← result_fold f s l1; result_fold f s' l2).
Proof.
  revert s. induction l1 as [|x l1 IH]; intros s; simpl; [done|].
  destruct (f s x) as [s'|e]; simpl; [apply IH | done].
Qed.

Lemma result_fold_err {A S : Type} (f : S → A → result S) (s s' : S)
    (l1 l2 : list A) (x : A) (e : exception) :
  result_fold f s l1 = Ok s' → f s' x = Err e →
  result_fold f s (l1 ++ x :: l2) = Err e.
Proof.
  intros Hpre Hx. rewrite result_fold_app, Hpre. simpl. by rewrite Hx.
Qed.

(** ** Tile footprints *)

(** C5: the footprint is the ring of the four window corners (0,0), (w,0),
    (w,h), (0,h) mapped through the tile's transform, in that order, closed
    by the first corner, with nothing else done to it; for the identity
    transform and the window (0,0,10,10) the corners are (0,0), (10,0),
    (10,10), (0,10). *)
Theorem create_tile_polygon_ring (src : rasterio.Dataset)
    (tile_window : rasterio.Window) :
  let t := rasterio.window_transform src tile_window in
  let w := inject_Z (rasterio.width tile_window) in
  let h := inject_Z (rasterio.height tile_window) in
  create_tile_polygon src tile_window =
    GPolygon (mkPolygon
      (rasterio.apply t <$> [(0, 0); (w, 0); (w, h); (0, h); (0, 0)]%Q) [])
  ∧ ∀ W H : Z,
      create_tile_polygon (rasterio.mkDataset W H rasterio.identity)
        (rasterio.mkWindow 0 0 10 10) =
      GPolygon (mkPolygon [(0, 0); (10, 0); (10, 10); (0, 10); (0, 0)]%Q []).
Proof.
  split; [reflexivity|]. intros W H. reflexivity.
Qed.

(** ** Coordinate lists *)

Section NormalizerFacts.
Context `{E : shapely.Engine}.
Variable py_float : string → option Q.

(** The loop of the parser ends within the iterations it is given: when
    it stops, its condition is false. *)
Lemma strip_bounds_exit (fuel : nat) (polygon_str : string) (size start end_ : Z) :
  (end_ - start < Z.of_nat fuel)%Z →
  let '(start', end') := strip_bounds fuel polygon_str size start end_ in
  strip_continues polygon_str size start' end' = false.
Proof.
  revert start end_. induction fuel as [|fuel IH]; intros start end_ Hfuel.
  { simpl. unfold strip_continues.
    destruct (Z.ltb_spec start end_); [lia|done]. }
  cbn [strip_bounds].
  destruct (strip_continues polygon_str size start end_) eqn:Hcont; [|done].
  apply IH. unfold strip_continues in Hcont.
  destruct (pystr.isdigit_at polygon_str start),
           (pystr.isdigit_at polygon_str end_);
    rewrite ?andb_false_r in Hcont; try discriminate; lia.
Qed.

Lemma parse_polygon_str_exit (polygon_str : string) :
  let size := Z.of_nat (String.length polygon_str) in
  let '(start, end_) :=
    strip_bounds (String.length polygon_str) polygon_str size 0 (size - 1) in
  strip_continues polygon_str size start end_ = false.
Proof. apply strip_bounds_exit. lia. Qed.

(** On a polygon the normalizer is simplification followed by
    canonicalization, both done by the library. *)
Lemma normalize_polygon_polygon (p : Polygon) :
  normalize_polygon py_float (VGeom (GPolygon p)) =
  Ok (VGeom (shapely.normalize (shapely.simplify (GPolygon p) 0.002 true))).
Proof. reflexivity. Qed.

Lemma pair_windows_shift (x : PyVal) (l : list PyVal) (idx : list nat) :
  omap (fun i => a ← (x :: l) !! i; b ← (x :: l) !! (i + 1)%nat;
                 Some (VTuple [a; b])) (S <$> idx) =
  omap (fun i => a ← l !! i; b ← l !! (i + 1)%nat; Some (VTuple [a; b])) idx.
Proof.
  induction idx as [|i idx IH]; [done|].
  rewrite fmap_cons. cbn [omap list_omap].
  fold (@omap list _ nat PyVal). rewrite IH. done.
Qed.

(** The comprehension pairs every element with its successor: the window
    moves by one element, not by two. *)
Lemma pair_windows_zip (polygon : list PyVal) :
  pair_windows polygon =
  zip_with (fun x y => VTuple [x; y]) polygon (tail polygon).
Proof.
  unfold pair_windows.
  induction polygon as [|x [|y l] IH]; [done..|].
  replace (length (x :: y :: l) - 1)%nat with (S (length (y :: l) - 1))
    by (simpl; lia).
  rewrite <- cons_seq, <- fmap_S_seq.
  trans (VTuple [x; y]
         :: zip_with (fun x y => VTuple [x; y]) (y :: l) (tail (y :: l)));
    [|done].
  rewrite <- IH, <- (pair_windows_shift x (y :: l)). done.
Qed.

Lemma pair_windows_length (polygon : list PyVal) :
  length (pair_windows polygon) = (length polygon - 1)%nat.
Proof.
  rewrite pair_windows_zip, length_zip_with.
  destruct polygon as [|x l]; [done|]. cbn [tail length]. lia.
Qed.

(** C6: the comprehension does not cut a flat list into its points.  A list
    of n values gives n - 1 pairs, each value but the last paired with its
    successor: [x0, y0, x1, y1] gives (x0,y0), (y0,x1), (x1,y1), and the flat
    list [0,0, 1,0, 1,1, 0,1] of the corners of the unit square gives seven
    pairs, not the four corners. *)
Theorem pair_windows_flat_square :
  (∀ polygon, length (pair_windows polygon) = (length polygon - 1)%nat)
  ∧ (∀ x0 y0 x1 y1,
       pair_windows [x0; y0; x1; y1] =
       [VTuple [x0; y0]; VTuple [y0; x1]; VTuple [x1; y1]])
  ∧ pair_windows (VInt <$> [0; 0; 1; 0; 1; 1; 0; 1]%Z) =
    (fun '(x, y) => VTuple [VInt x; VInt y]) <$>
      [(0, 0); (0, 1); (1, 0); (0, 1); (1, 1); (1, 0); (0, 1)]%Z.
Proof.
  split; [apply pair_windows_length|].
  split; [|reflexivity].
  intros x0 y0 x1 y1. by rewrite pair_windows_zip.
Qed.

Lemma py_normalize_sequence (items : list PyVal) :
  (∃ e, py_normalize (VList items) = Err e) ∨
  (∃ array, py_normalize (VList items) = Ok (VList array)).
Proof.
  simpl.
  match goal with |- context [VList <$> ?r] => destruct r as [array|e] end;
    simpl; eauto.
Qed.

Lemma parse_polygon_str_sequence (s : string) :
  (∃ e, parse_polygon_str py_float s = Err e) ∨
  (∃ points, parse_polygon_str py_float s = Ok (VList points)).
Proof.
  unfold parse_polygon_str.
  destruct (strip_bounds _ _ _ _ _) as [start end_].
  match goal with |- context [VList <$> ?r] => destruct r as [points|e] end;
    simpl; eauto.
Qed.

(** What happens to a sequence once the coordinates are parsed: it is
    handed to [normalize] as it is, and no polygon is ever made of it. *)
Lemma normalize_sequence_fails (points : list PyVal) :
  ∃ e, (polygon ← py_normalize (VList points);
        simplified ← py_simplify polygon;
        py_normalize simplified) = Err e.
Proof.
  destruct (py_normalize_sequence points) as [[e ->]|[array ->]]; simpl; eauto.
Qed.

(** C2: a coordinate list and a coordinate string both make
    [normalize_polygon] raise, whatever they hold; for instance the list
    of pairs [(0,0), (1,0), (1,1), (0,1)] ends in a [TypeError]. *)
Theorem normalize_polygon_rejects_sequences :
  (∀ items, ∃ e, normalize_polygon py_float (VList items) = Err e)
  ∧ (∀ s, ∃ e, normalize_polygon py_float (VStr s) = Err e)
  ∧ normalize_polygon py_float
      (VList ((fun '(x, y) => VTuple [VInt x; VInt y]) <$>
                [(0, 0); (1, 0); (1, 1); (0, 1)]%Z)) = Err TypeError.
Proof.
  split; [|split; [|reflexivity]].
  - intros [|x items]; [by eexists|].
    unfold normalize_polygon.
    destruct x; apply normalize_sequence_fails.
  - intros s. unfold normalize_polygon.
    destruct (parse_polygon_str_sequence s) as [[e He]|[points Hp]].
    + rewrite He. by eexists.
    + rewrite Hp. apply normalize_sequence_fails.
Qed.
End NormalizerFacts.

(** The example of the docstring of [parse_polygon_str] *)
Lemma parse_polygon_str_docstring :
  parse_polygon_str whole_number_float "(1 2, 3 4, 5 6)" =
  Ok (VList [VTuple [VFloat 1; VFloat 2]; VTuple [VFloat 3; VFloat 4];
             VTuple [VFloat 5; VFloat 6]]).
Proof. reflexivity. Qed.

(** ** Decomposition and merging *)

Section PolygonsFacts.
Context `{E : shapely.Engine}.

Lemma geom_type_polygon (g : Geometry) :
  geom_type g = "Polygon" ↔ ∃ p, g = GPolygon p.
Proof. destruct g; split; intros H; try discriminate; try (by destruct H); eauto. Qed.

Lemma geom_type_multipolygon (g : Geometry) :
  geom_type g = "MultiPolygon" ↔ ∃ parts, g = GMultiPolygon parts.
Proof. destruct g; split; intros H; try discriminate; try (by destruct H); eauto. Qed.

(** C7: a geometry that is neither a Polygon nor a MultiPolygon makes the
    decomposer raise, with or without [flatten], while the bounding-box
    extractor returns the empty list and prints a diagnostic. *)
Theorem unknown_kind_asymmetry (geom : Geometry) (flatten : bool) :
  geom_type geom ≠ "Polygon" →
  geom_type geom ≠ "MultiPolygon" →
  get_geom_polygons geom flatten = Err (ValueError "Unknown geometry type")
  ∧ get_polygon_bboxes geom = ([], ["Unknown geometry type"]).
Proof. intros Hp Hm. by destruct geom. Qed.

(** The decomposer accepts the two polygonal kinds when it does not merge. *)
Lemma get_geom_polygons_no_flatten (geom : Geometry) :
  geom_type geom = "Polygon" ∨ geom_type geom = "MultiPolygon" →
  ∃ polygons, get_geom_polygons geom false = Ok polygons.
Proof. intros [H|H]; destruct geom; try discriminate; simpl; eauto. Qed.

Lemma first_genuine_part_Some (flat polygon : Geometry) (parts : list Geometry)
    (m : Geometry) :
  first_genuine_part flat polygon parts = Some m →
  m ∈ parts ∧ shapely.equals m flat = false ∧ shapely.equals m polygon = false.
Proof.
  induction parts as [|poly parts IH]; simpl; [done|].
  destruct (shapely.equals poly flat) eqn:Hf; simpl.
  { intros H. destruct (IH H) as (?&?&?). split; [by right|done]. }
  destruct (shapely.equals poly polygon) eqn:Hp.
  { intros H. destruct (IH H) as (?&?&?). split; [by right|done]. }
  intros [= <-]. split; [by left|done].
Qed.

(** The merge of a two-part geometry, case by case on what the coverage
    union of the two parts is. *)
Lemma flatten_two_parts (p q : Polygon) :
  let flat := shapely.normalize (GPolygon p) in
  let polygon := shapely.normalize (GPolygon q) in
  get_geom_polygons (GMultiPolygon [p; q]) true =
  match shapely.coverage_union flat polygon with
  | Err e => Err e
  | Ok union =>
      match geoms union with
      | Err e => Err e
      | Ok parts =>
          match first_genuine_part flat polygon parts with
          | Some poly => Ok [poly]
          | None => Ok [flat; polygon]
          end
      end
  end.
Proof.
  simpl. unfold merge_step. simpl.
  destruct (shapely.coverage_union _ _) as [union|e]; simpl; [|done].
  destruct (geoms union) as [parts|e]; simpl; [|done].
  by destruct (first_genuine_part _ _ parts).
Qed.

(** A single polygon can only come out of the merge of two parts when the
    coverage union of the two is itself a multi-part geometry, of which
    the polygon is a part that equals neither of the two. *)
Lemma flatten_two_parts_single (p q : Polygon) (m : Geometry) :
  get_geom_polygons (GMultiPolygon [p; q]) true = Ok [m] →
  ∃ union parts,
    shapely.coverage_union (shapely.normalize (GPolygon p))
      (shapely.normalize (GPolygon q)) = Ok union
    ∧ geoms union = Ok parts
    ∧ m ∈ parts
    ∧ shapely.equals m (shapely.normalize (GPolygon p)) = false
    ∧ shapely.equals m (shapely.normalize (GPolygon q)) = false.
Proof.
  rewrite flatten_two_parts.
  destruct (shapely.coverage_union _ _) as [union|e]; [|done].
  destruct (geoms union) as [parts|e] eqn:Hparts; [|done].
  destruct (first_genuine_part _ _ parts) as [poly|] eqn:Hfirst; [|done].
  intros [= ->]. exists union, parts.
  destruct (first_genuine_part_Some _ _ _ _ Hfirst) as (?&?&?). done.
Qed.

(** When the coverage union leaves the two parts as they are, both come
    back. *)
Lemma flatten_two_parts_unmerged (p q : Polygon) (union : Geometry)
    (parts : list Geometry) :
  shapely.coverage_union (shapely.normalize (GPolygon p))
    (shapely.normalize (GPolygon q)) = Ok union →
  geoms union = Ok parts →
  first_genuine_part (shapely.normalize (GPolygon p))
    (shapely.normalize (GPolygon q)) parts = None →
  get_geom_polygons (GMultiPolygon [p; q]) true =
  Ok [shapely.normalize (GPolygon p); shapely.normalize (GPolygon q)].
Proof. intros Hu Hp Hf. by rewrite flatten_two_parts, Hu, Hp, Hf. Qed.

End PolygonsFacts.

Lemma squares_union_area :
  (polygon_area squares_union == 7
   ∧ polygon_area square_a + polygon_area square_b == 8)%Q.
Proof. split; reflexivity. Qed.

Lemma unknown_kind_asymmetry_witness :
  geom_type (GPoint [(1, 2)%Q]) ≠ "Polygon"
  ∧ geom_type (GPoint [(1, 2)%Q]) ≠ "MultiPolygon"
  ∧ get_geom_polygons (E := boxes.engine) (GPoint [(1, 2)%Q]) true =
      Err (ValueError "Unknown geometry type")
  ∧ get_polygon_bboxes (E := boxes.engine) (GPoint [(1, 2)%Q]) =
      ([], ["Unknown geometry type"]).
Proof.
  split; [discriminate|]. split; [discriminate|].
  apply (unknown_kind_asymmetry (E := boxes.engine)); discriminate.
Defined.

(** C3: flattening the two overlapping squares hands back the two squares
    as they are, two polygons of area 4 each, and not the one polygon of
    area 7 that their union is.  The coverage union of two overlapping
    shapes dissolves nothing, so that none of its parts differs from both
    squares and the merge has nothing to put in the place of the first. *)
Theorem flatten_overlapping_squares :
  get_geom_polygons (E := boxes.engine) (GMultiPolygon [square_a; square_b]) true =
    Ok [GPolygon square_a; GPolygon square_b]
  ∧ (polygon_area square_a == 4 ∧ polygon_area square_b == 4
     ∧ polygon_area squares_union == 7)%Q
  ∧ ¬ ∃ merged,
        get_geom_polygons (E := boxes.engine)
          (GMultiPolygon [square_a; square_b]) true = Ok [merged].
Proof.
  assert (Hboth :
    get_geom_polygons (E := boxes.engine) (GMultiPolygon [square_a; square_b]) true =
    Ok [GPolygon square_a; GPolygon square_b]).
  { apply (flatten_two_parts_unmerged (E := boxes.engine) square_a square_b
             (GMultiPolygon [square_a; square_b])
             [GPolygon square_a; GPolygon square_b]).
    - reflexivity.
    - reflexivity.
    - vm_compute. reflexivity. }
  split; [exact Hboth|]. split; [repeat split|].
  intros [merged Hone]. rewrite Hboth in Hone. discriminate Hone.
Qed.

(** ** The grouped flattening pipeline *)

Section FlattenFacts.
Context `{E : shapely.Engine}.

Lemma template_row_Some (group : list Row) (i : nat) (gc : string) :
  (∀ row, row ∈ group → is_Some (row !! gc)) →
  (i < length group)%nat →
  ∃ row, group !! i = Some row ∧ template_row group i gc = Ok (delete gc row).
Proof.
  intros Hgc Hi. destruct (lookup_lt_is_Some_2 group i Hi) as [row Hrow].
  exists row. split; [done|].
  unfold template_row, pandas.iloc. rewrite Hrow. simpl.
  unfold pandas.drop.
  destruct (Hgc row) as [v ->]; [by eapply list_elem_of_lookup_2|done].
Qed.

Lemma template_row_out_of_range (group : list Row) (i : nat) (gc : string) :
  (length group ≤ i)%nat → template_row group i gc = Err IndexError.
Proof.
  intros Hi. unfold template_row, pandas.iloc.
  by rewrite (lookup_ge_None_2 group i Hi).
Qed.

Lemma flatten_part_Ok (group : list Row) (gc : string) (polygon poly : Geometry)
    (st : FlattenState) (i : nat) (row : Row) :
  template_row group i gc = Ok row →
  flatten_part group gc polygon st (i, poly) =
  Ok (emit_bboxes (alloc row st).1 polygon (alloc row st).2).
Proof. intros H. unfold flatten_part. by rewrite H. Qed.

Lemma flatten_part_Err (group : list Row) (gc : string) (polygon poly : Geometry)
    (st : FlattenState) (i : nat) (e : exception) :
  template_row group i gc = Err e →
  flatten_part group gc polygon st (i, poly) = Err e.
Proof. intros H. unfold flatten_part. by rewrite H. Qed.

(** The loop over the parts of a multi-part union, from part [j] on *)
Lemma flatten_parts_from (group : list Row) (gc : string) (polygon : Geometry)
    (parts : list Geometry) (j : nat) (st : FlattenState) :
  (∀ row, row ∈ group → is_Some (row !! gc)) →
  let run := result_fold (flatten_part group gc polygon) st
               (imap (fun i poly => (j + i, poly)%nat) parts) in
  ((j + length parts ≤ length group)%nat → ∃ st', run = Ok st')
  ∧ ((j ≤ length group < j + length parts)%nat → run = Err IndexError).
Proof.
  intros Hgc. revert j st.
  induction parts as [|poly parts IH]; intros j st run; subst run.
  { simpl. split; [eauto|]. intros; lia. }
  rewrite imap_cons. cbn [result_fold].
  rewrite (imap_ext _ (fun i poly => (S j + i, poly)%nat)) by (intros; simpl; f_equal; lia).
  cbn beta. rewrite Nat.add_0_r.
  destruct (decide (j < length group)%nat) as [Hj|Hj].
  - destruct (template_row_Some group j gc Hgc Hj) as (row & _ & Hrow).
    rewrite (flatten_part_Ok _ _ _ _ _ _ _ Hrow). simpl mbind.
    destruct (IH (S j) (emit_bboxes (alloc (delete gc row) st).1 polygon
                          (alloc (delete gc row) st).2)) as [IHok IHerr].
    simpl length. split; intros; [apply IHok|apply IHerr]; lia.
  - rewrite (flatten_part_Err _ _ _ _ _ _ IndexError)
      by (apply template_row_out_of_range; lia).
    split; [simpl; intros; lia|done].
Qed.


Lemma flatten_group_outcome (gname gc : string) (st : FlattenState) (group : list Row) :
  (∀ row, row ∈ group → is_Some (row !! gc)) →
  group ≠ [] →
  let n := part_count (shapely.unary_union (pandas.geometry gname group)) in
  ((n ≤ length group)%nat → ∃ st', flatten_group gname gc st group = Ok st')
  ∧ ((length group < n)%nat → flatten_group gname gc st group = Err IndexError).
Proof.
  intros Hgc Hne n. subst n. unfold flatten_group.
  assert (Hlen : (0 < length group)%nat) by (destruct group; [done|simpl; lia]).
  destruct (shapely.unary_union _) as [| | | | | |parts|] eqn:Hu; simpl part_count;
    try (destruct (template_row_Some group 0 gc Hgc Hlen) as (row & _ & ->);
         simpl; split; [eauto|intros; lia]).
  pose proof (flatten_parts_from group gc (GMultiPolygon parts) (GPolygon <$> parts) 0 st Hgc) as [Hok Herr].
  simpl in Hok, Herr. rewrite length_fmap in Hok, Herr.
  split; intros; [apply Hok|apply Herr]; lia.
Qed.

Lemma flatten_loop_outcome (gname gc : string) (groups : list (list Row)) (st : FlattenState) :
  (∀ group, group ∈ groups → group ≠ [] ∧ ∀ row, row ∈ group → is_Some (row !! gc)) →
  let n group := part_count (shapely.unary_union (pandas.geometry gname group)) in
  ((∀ group, group ∈ groups → (n group ≤ length group)%nat) →
     ∃ st', result_fold (flatten_group gname gc) st groups = Ok st')
  ∧ ((∃ group, group ∈ groups ∧ (length group < n group)%nat) →
     result_fold (flatten_group gname gc) st groups = Err IndexError).
Proof.
  intros Hwf n. revert st. induction groups as [|group groups IH]; intros st.
  { split; [simpl; eauto|]. intros (group & Hin & _). by apply elem_of_nil in Hin. }
  destruct (Hwf group) as [Hne Hgc]; [by left|].
  destruct (flatten_group_outcome gname gc st group Hgc Hne) as [Hok Herr].
  fold (n group) in Hok, Herr.
  simpl result_fold.
  destruct (decide (n group ≤ length group)%nat) as [Hn|Hn].
  - destruct (Hok Hn) as [st' ->]. simpl mbind.
    destruct (IH (fun g Hg => Hwf g (proj2 (elem_of_cons _ _ _) (or_intror Hg))) st')
      as [IHok IHerr].
    split.
    + intros Hall. apply IHok. intros g Hg. apply Hall. by right.
    + intros (g & Hg & Hbad). apply IHerr.
      apply elem_of_cons in Hg as [->|Hg]; [lia|eauto].
  - rewrite Herr by lia. split; [|done].
    intros Hall. exfalso. apply Hn, Hall. by left.
Qed.

Lemma result_fold_invariant {A S : Type} (P : S → Prop) (f : S → A → result S)
    (l : list A) (s s' : S) :
  P s →
  (∀ s x s', x ∈ l → P s → f s x = Ok s' → P s') →
  result_fold f s l = Ok s' → P s'.
Proof.
  revert s. induction l as [|x l IH]; intros s Hs Hstep; simpl.
  { by intros [= <-]. }
  destruct (f s x) as [s1|e] eqn:Hx; simpl; [|done].
  apply IH.
  - eapply Hstep; [by left|done..].
  - intros s2 y s3 Hy. apply Hstep. by right.
Qed.

Lemma add_to_group_elem (key : list PyVal) (row : Row)
    (groups : list (list PyVal * list Row)) (kg : list PyVal * list Row) :
  kg ∈ pandas.add_to_group key row groups →
  kg ∈ groups ∨ kg = (key, [row]) ∨ ∃ members, (key, members) ∈ groups ∧ kg = (key, members ++ [row]).
Proof.
  induction groups as [|[key' members] groups IH]; simpl.
  { intros ->%list_elem_of_singleton. auto. }
  destruct (decide (key = key')) as [->|Hne].
  - intros [->|Hin]%elem_of_cons.
    + right. right. exists members. split; [by left|done].
    + left. by right.
  - intros [->|Hin]%elem_of_cons; [left; by left|].
    destruct (IH Hin) as [?|[?|(m & ? & ?)]]; [left; by right|auto|].
    right. right. exists m. split; [by right|done].
Qed.

(** Every group is non-empty and made of rows of the frame. *)
Lemma groupby_groups (frame : list Row) (by_ : pandas.GroupBy)
    (groups : list (list PyVal * list Row)) :
  pandas.groupby frame by_ = Ok groups →
  ∀ group, group ∈ groups.*2 → group ≠ [] ∧ ∀ row, row ∈ group → row ∈ frame.
Proof.
  unfold pandas.groupby. destruct (pandas.key_columns by_) as [cols|e]; [|done].
  simpl. intros Hfold group Hgroup.
  apply list_elem_of_fmap in Hgroup as ([key g] & -> & Hin). simpl.
  revert key g Hin.
  refine (result_fold_invariant
    (fun groups => ∀ key g, (key, g) ∈ groups → g ≠ [] ∧ ∀ row, row ∈ g → row ∈ frame)
    _ frame [] groups _ _ Hfold).
  { intros key g Hin. by apply elem_of_nil in Hin. }
  intros gs row gs' Hrow IH.
  destruct (mapM _ cols) as [key|e]; simpl; [|done].
  destruct (decide (VNone ∈ key)); intros [= <-]; [done|].
  intros key' g Hin.
  destruct (add_to_group_elem _ _ _ _ Hin) as [?|[[= -> ->]|(m & Hm & [= -> ->])]].
  - eauto.
  - split; [done|]. by intros r ->%list_elem_of_singleton.
  - split; [by destruct m|].
    intros r [Hr| ->%list_elem_of_singleton]%elem_of_app; [|done].
    by apply (IH _ _ Hm).
Qed.

(** C10: with the groups at hand and the geometry column present in every
    row, [flatten_polygons] raises an [IndexError] as soon as the union of
    some group has more parts than the group has rows, and returns a frame
    when no group is in that case. *)
Theorem flatten_polygons_total_iff (gdf_src : GeoDataFrame) (geometry_column : string)
    (group_by : pandas.GroupBy) (groups : list (list PyVal * list Row)) :
  pandas.groupby (gdf_rows gdf_src) group_by = Ok groups →
  (∀ row, row ∈ gdf_rows gdf_src → is_Some (row !! geometry_column)) →
  let parts_of group :=
    part_count (shapely.unary_union
                  (pandas.geometry (gdf_geometry_name gdf_src) group)) in
  ((∃ group, group ∈ groups.*2 ∧ (length group < parts_of group)%nat) →
     flatten_polygons gdf_src geometry_column group_by = Err IndexError)
  ∧ ((∀ group, group ∈ groups.*2 → (parts_of group ≤ length group)%nat) →
     is_ok (flatten_polygons gdf_src geometry_column group_by) = true).
Proof.
  intros Hgroups Hgc parts_of.
  pose proof (groupby_groups _ _ _ Hgroups) as Hwf.
  unfold flatten_polygons, flatten_polygons_loop. rewrite Hgroups. simpl mbind.
  destruct (flatten_loop_outcome (gdf_geometry_name gdf_src) geometry_column
              groups.*2 (mkFlattenState [] [] [] [])) as [Hok Herr].
  { intros group Hg. destruct (Hwf group Hg) as [Hne Hrows].
    split; [done|]. intros row Hr. apply Hgc, Hrows, Hr. }
  cbv zeta in Hok, Herr. split.
  - intros Hbad. specialize (Herr Hbad). by rewrite Herr.
  - intros Hall. specialize (Hok Hall). by destruct Hok as [st' ->].
Qed.

Lemma emit_fold_geometry (ref : nat) (polygon : Geometry)
    (bboxes : list (option Geometry)) (st : FlattenState) :
  fs_geometry (foldl (emit ref polygon) st bboxes) =
  fs_geometry st ++ replicate (length bboxes) polygon.
Proof.
  revert st. induction bboxes as [|bbox bboxes IH]; intros st; simpl.
  { by rewrite app_nil_r. }
  rewrite IH. simpl. by rewrite <- app_assoc.
Qed.

Lemma emit_bboxes_multipart (ref : nat) (parts : list Polygon) (st : FlattenState) :
  fs_geometry (emit_bboxes ref (GMultiPolygon parts) st) =
  fs_geometry st ++ replicate (length parts) (GMultiPolygon parts).
Proof.
  unfold emit_bboxes. simpl. rewrite emit_fold_geometry. simpl.
  by rewrite !length_fmap.
Qed.

Lemma flatten_parts_geometry (group : list Row) (gc : string) (parts : list Polygon)
    (todo : list (nat * Geometry)) (st st' : FlattenState) :
  result_fold (flatten_part group gc (GMultiPolygon parts)) st todo = Ok st' →
  fs_geometry st' =
  fs_geometry st ++ replicate (length todo * length parts) (GMultiPolygon parts).
Proof.
  revert st. induction todo as [|[i poly] todo IH]; intros st; simpl.
  { intros [= <-]. by rewrite app_nil_r. }
  unfold flatten_part at 1.
  destruct (template_row group i gc) as [row|e]; simpl; [|done].
  intros Hrest. rewrite (IH _ Hrest), emit_bboxes_multipart. simpl.
  by rewrite <- app_assoc, replicate_add.
Qed.

(** Whatever the size of the group, every geometry that a group with a
    multi-part union adds to the output is the whole union, once for every
    pair of parts. *)
Lemma flatten_group_multipart_geometry (gname gc : string) (group : list Row)
    (parts : list Polygon) (st st' : FlattenState) :
  shapely.unary_union (pandas.geometry gname group) = GMultiPolygon parts →
  flatten_group gname gc st group = Ok st' →
  fs_geometry st' =
  fs_geometry st
  ++ replicate (length parts * length parts) (GMultiPolygon parts).
Proof.
  intros Hunion. unfold flatten_group. rewrite Hunion. intros Hrun.
  rewrite (flatten_parts_geometry _ _ _ _ _ _ Hrun).
  by rewrite length_imap, length_fmap.
Qed.
(** Without a grouping key there is nothing to group by: the call raises
    before the first group. *)
Lemma flatten_polygons_no_key (gdf_src : GeoDataFrame) (geometry_column : string) :
  flatten_polygons gdf_src geometry_column pandas.ByNone = Err TypeError.
Proof. reflexivity. Qed.

(** C1: for a group of two records whose union has the two parts [p] and
    [q], the output has four rows, not two; the geometry of every one of
    them is the whole two-part union, not one part; and the two rows made
    from one record are one dictionary, so that both carry the box of the
    last part. *)
Theorem flatten_polygons_multipart_rows (gdf_src : GeoDataFrame)
    (geometry_column : string) (group_by : pandas.GroupBy)
    (key : list PyVal) (r0 r1 : Row) (p q : Polygon) :
  pandas.groupby (gdf_rows gdf_src) group_by = Ok [(key, [r0; r1])] →
  shapely.unary_union (pandas.geometry (gdf_geometry_name gdf_src) [r0; r1]) =
    GMultiPolygon [p; q] →
  is_Some (r0 !! geometry_column) →
  is_Some (r1 !! geometry_column) →
  let union := GMultiPolygon [p; q] in
  let last_box := py_geom (bbox_of (GPolygon q)) in
  let d0 := <["bbox" := last_box]> (delete geometry_column r0) in
  let d1 := <["bbox" := last_box]> (delete geometry_column r1) in
  flatten_polygons gdf_src geometry_column group_by =
  Ok (pandas.GeoDataFrame_of [d0; d0; d1; d1]
        [VGeom union; VGeom union; VGeom union; VGeom union]
        (gdf_crs gdf_src)).
Proof.
  intros Hgroups Hunion [v0 H0] [v1 H1] union last_box d0 d1.
  unfold flatten_polygons, flatten_polygons_loop. rewrite Hgroups.
  simpl. unfold flatten_group. rewrite Hunion. simpl.
  unfold flatten_part, template_row, pandas.iloc, pandas.drop. simpl.
  rewrite H0. simpl. rewrite H1. simpl.
  unfold final_rows. simpl.
  rewrite !insert_insert_eq. done.
Qed.
End FlattenFacts.

Lemma flatten_polygons_total_iff_witness :
  flatten_polygons (E := boxes.engine) one_multipart_record "geometry"
    (pandas.ByColumn "site") = Err IndexError.
Proof.
  assert (Hgroups : pandas.groupby (gdf_rows one_multipart_record)
                      (pandas.ByColumn "site") =
                    Ok [([VStr "s1"], gdf_rows one_multipart_record)])
    by (vm_compute; reflexivity).
  assert (Hcol : ∀ row, row ∈ gdf_rows one_multipart_record →
                        is_Some (row !! "geometry")).
  { intros row Hrow. apply list_elem_of_singleton in Hrow. subst row.
    vm_compute. eauto. }
  apply (proj1 (flatten_polygons_total_iff (E := boxes.engine)
                  one_multipart_record "geometry" (pandas.ByColumn "site")
                  _ Hgroups Hcol)).
  exists (gdf_rows one_multipart_record). split; [left|vm_compute; lia].
Defined.

Lemma flatten_polygons_multipart_rows_witness :
  ∃ d0 d1,
    flatten_polygons (E := boxes.engine) two_records "geometry"
      (pandas.ByColumn "site") =
    Ok (pandas.GeoDataFrame_of [d0; d0; d1; d1]
          (replicate 4 (VGeom (GMultiPolygon [unit_a; unit_b])))
          (Some "EPSG:4326")).
Proof.
  eexists _, _.
  apply (flatten_polygons_multipart_rows (E := boxes.engine) two_records
           "geometry" (pandas.ByColumn "site") [VStr "s1"]
           (record "s1" (GPolygon unit_a)) (record "s1" (GPolygon unit_b))
           unit_a unit_b).
  - vm_compute. reflexivity.
  - vm_compute. reflexivity.
  - vm_compute. eauto.
  - vm_compute. eauto.
Defined.

(** ** Metadata mapping *)

Lemma dict_set_diagonal (k : string) (entries : list (string * string)) (c : string) :
  (∀ kv, kv ∈ entries → kv.1 = kv.2) →
  (∀ kv, kv ∈ dict_set k k entries → kv.1 = kv.2)
  ∧ (c ∈ (dict_set k k entries).*2 ↔ c = k ∨ c ∈ entries.*2).
Proof.
  induction entries as [|[k' v'] entries IH]; intros Hdiag; simpl.
  { split; [by intros kv ->%list_elem_of_singleton|].
    rewrite list_elem_of_singleton, elem_of_nil. tauto. }
  assert (Hkv : k' = v') by (apply (Hdiag (k', v')); by left).
  assert (Htail : ∀ kv, kv ∈ entries → kv.1 = kv.2)
    by (intros kv Hin; apply Hdiag; by right).
  destruct (IH Htail) as [IHd IHm].
  destruct (decide (k = k')) as [->|Hne]; simpl.
  - split.
    + intros kv [->|Hin]%elem_of_cons; [done|]. by apply Htail.
    + rewrite !elem_of_cons. subst v'. tauto.
  - split.
    + intros kv [->|Hin]%elem_of_cons; [done|]. by apply IHd.
    + rewrite !elem_of_cons, IHm. tauto.
Qed.

(** For a list of plain column names, the columns read are the names. *)
Lemma preserved_columns_names (names : list string) (c : string) :
  c ∈ preserved_columns (FieldsList (ItemStr <$> names)) ↔ c ∈ names.
Proof.
  unfold preserved_columns. simpl.
  assert (Hgen : ∀ acc : list (string * string),
    (∀ kv, kv ∈ acc → kv.1 = kv.2) →
    c ∈ (foldl (fun field_map item =>
                  match item with
                  | ItemStr s => dict_set s s field_map
                  | ItemDict entries => dict_update field_map entries
                  | ItemOther => field_map
                  end) acc (ItemStr <$> names)).*2
    ↔ c ∈ acc.*2 ∨ c ∈ names).
  { induction names as [|n names IH]; intros acc Hdiag; simpl.
    { rewrite elem_of_nil. tauto. }
    destruct (dict_set_diagonal n acc c Hdiag) as [Hd Hm].
    rewrite (IH _ Hd), Hm, elem_of_cons. tauto. }
  rewrite Hgen by (intros kv Hin; by apply elem_of_nil in Hin).
  simpl. rewrite elem_of_nil. tauto.
Qed.

(** A later entry for an output name replaces an earlier one: the column of
    the earlier entry is not read any more. *)
Lemma preserved_columns_override :
  preserved_columns (FieldsList [ItemStr "a"; ItemDict [("a", "b")]]) = ["b"].
Proof. reflexivity. Qed.

Lemma result_fold_Err_inv {A S : Type} (f : S → A → result S) (s : S) (l : list A)
    (e : exception) :
  result_fold f s l = Err e →
  ∃ pre x post s', l = pre ++ x :: post
                   ∧ result_fold f s pre = Ok s' ∧ f s' x = Err e.
Proof.
  revert s. induction l as [|x l IH]; intros s; simpl; [done|].
  destruct (f s x) as [s1|e1] eqn:Hx; simpl.
  - intros H. destruct (IH _ H) as (pre & y & post & s' & -> & Hpre & Hy).
    exists (x :: pre), y, post, s'. simpl. rewrite Hx. simpl. done.
  - intros [= ->]. exists [], x, l, s. done.
Qed.

Section MetadataFacts.
Context `{FS : FileSystem}.
Variable parse_filename : Row → result string.

Lemma copy_fields_missing (field_map : list (string * string)) (row : Row)
    (col : string) :
  col ∈ field_map.*2 → row !! col = None →
  ∃ col', col' ∈ field_map.*2 ∧ row !! col' = None
          ∧ ∀ metadata, copy_fields field_map row metadata = Err (KeyError col').
Proof.
  induction field_map as [|[new_col old_col] field_map IH]; simpl.
  { intros H. by apply elem_of_nil in H. }
  intros Hin Hnone. unfold copy_fields. simpl.
  destruct (row !! old_col) as [v|] eqn:Hold.
  - apply elem_of_cons in Hin as [->|Hin]; [congruence|].
    destruct (IH Hin Hnone) as (col' & Hin' & Hnone' & Herr).
    exists col'. split; [by right|]. split; [done|].
    intros metadata. rewrite decide_True by eauto. simpl. apply Herr.
  - exists old_col. split; [by left|]. split; [done|].
    intros metadata. rewrite decide_False; [done|]. by intros [? ?].
Qed.

Lemma copy_fields_present (field_map : list (string * string)) (row metadata : Row) :
  (∀ col, col ∈ field_map.*2 → is_Some (row !! col)) →
  ∃ metadata', copy_fields field_map row metadata = Ok metadata'.
Proof.
  revert metadata.
  induction field_map as [|[new_col old_col] field_map IH]; intros metadata Hall.
  { by eexists. }
  unfold copy_fields. simpl. rewrite decide_True by (apply Hall; by left).
  simpl. apply IH. intros col Hcol. apply Hall. by right.
Qed.

Lemma reaches_field_check_inv (images_dir : string) (rows : list Row) (row : Row) :
  reaches_field_check parse_filename images_dir rows row = true →
  ∃ filename img,
    let path := pathlib.joinpath images_dir filename in
    parse_filename row = Ok filename
    ∧ path_exists path = true
    ∧ path_seen rows path = false
    ∧ open_fn (pathlib.suffix path) path = Ok img.
Proof.
  unfold reaches_field_check.
  destruct (parse_filename row) as [filename|e]; [|done].
  intros [[Hex Hseen%negb_true_iff]%andb_true_iff Hopen]%andb_true_iff.
  destruct (open_fn _ _) as [img|e] eqn:Himg; [|done].
  by exists filename, img.
Qed.

(** C9: when the loop gets to the field check for a row that lacks a
    column read by the field map, [map_metadata] raises the [KeyError] of
    such a column; and when every row for which the loop gets to the check
    has all these columns, no [KeyError] comes out of [map_metadata]
    (the collaborators raising none themselves). *)
Theorem map_metadata_field_check (gdf_src : GeoDataFrame) (images_dir : string)
    (preserve_fields : PreserveFields) :
  let step := map_metadata_row parse_filename images_dir
                (make_field_map preserve_fields) in
  (∀ pre row post acc col,
      gdf_rows gdf_src = pre ++ row :: post →
      result_fold step ([], []) pre = Ok acc →
      reaches_field_check parse_filename images_dir acc.1 row = true →
      col ∈ preserved_columns preserve_fields →
      row !! col = None →
      ∃ col', col' ∈ preserved_columns preserve_fields
              ∧ row !! col' = None
              ∧ map_metadata parse_filename gdf_src images_dir preserve_fields
                = Err (KeyError col'))
  ∧ ((∀ row c, row ∈ gdf_rows gdf_src → parse_filename row ≠ Err (KeyError c)) →
     (∀ path c, open_raster path ≠ Err (KeyError c)) →
     (∀ path c, Image_open path ≠ Err (KeyError c)) →
     (∀ pre row post acc col,
         gdf_rows gdf_src = pre ++ row :: post →
         result_fold step ([], []) pre = Ok acc →
         reaches_field_check parse_filename images_dir acc.1 row = true →
         col ∈ preserved_columns preserve_fields →
         is_Some (row !! col)) →
     ∀ c, map_metadata parse_filename gdf_src images_dir preserve_fields
          ≠ Err (KeyError c)).
Proof.
  intros step. split.
  - intros pre row post [rows geometry] col Hsplit Hpre Hreach Hcol Hnone.
    destruct (copy_fields_missing _ row col Hcol Hnone)
      as (col' & Hcol' & Hnone' & Herr).
    exists col'. split; [done|]. split; [done|].
    destruct (reaches_field_check_inv _ _ _ Hreach)
      as (filename & img & Hparse & Hex & Hseen & Hopen).
    unfold map_metadata. rewrite Hsplit.
    rewrite (result_fold_err _ _ (rows, geometry) _ _ _ (KeyError col') Hpre);
      [done|].
    subst step. unfold map_metadata_row. rewrite Hparse. simpl.
    simpl in Hex, Hseen, Hopen. rewrite Hex, Hseen, Hopen. simpl.
    destruct img as [[w h]|ds]; simpl; rewrite Herr; done.
  - intros Hparse Hraster Himage Hpresent c Hmap.
    unfold map_metadata in Hmap.
    destruct (result_fold _ _ _) as [[rows geometry]|e] eqn:Hfold; [done|].
    simpl in Hmap. injection Hmap as ->.
    destruct (result_fold_Err_inv _ _ _ _ Hfold)
      as (pre & row & post & [rows geometry] & Hsplit & Hpre & Hrow).
    assert (Hin : row ∈ gdf_rows gdf_src).
    { rewrite Hsplit. apply elem_of_app. right. by left. }
    unfold map_metadata_row in Hrow.
    destruct (parse_filename row) as [filename|e] eqn:Hfile; simpl in Hrow.
    2: { injection Hrow as ->. by eapply Hparse. }
    destruct (path_exists _) eqn:Hex; [|done].
    destruct (path_seen rows _) eqn:Hseen; [done|].
    destruct (open_fn _ _) as [img|e] eqn:Hopen; simpl in Hrow.
    2: { injection Hrow as ->. unfold open_fn in Hopen.
         case_bool_decide; [by eapply Hraster|by eapply Himage]. }
    assert (Hreach : reaches_field_check parse_filename images_dir rows row = true).
    { unfold reaches_field_check. rewrite Hfile. simpl.
      by rewrite Hex, Hseen, Hopen. }
    destruct (copy_fields_present (make_field_map preserve_fields) row
      (let '(width, height) := match img with
          | PILImage size => size
          | RasterImage ds => (rasterio.ds_width ds, rasterio.ds_height ds)
          end in
       <["bbox" := pandas.get row "bbox"]>
        (<["height" := VInt height]>
         (<["width" := VInt width]>
          (<["path" := VStr (pathlib.joinpath images_dir filename)]>
           (<["filename" := VStr filename]> ∅)))))) as [metadata' Hcopy].
    { intros col Hcol. by eapply (Hpresent pre row post (rows, geometry)). }
    destruct img as [[w h]|ds]; simpl in Hrow, Hcopy; rewrite Hcopy in Hrow; done.
Qed.
End MetadataFacts.

Lemma map_metadata_field_check_witness :
  (∃ col, map_metadata (FS := two_tiles) filename_column two_records "/img"
            (FieldsList [ItemStr "zone"]) = Err (KeyError col))
  ∧ (∀ c, map_metadata (FS := two_tiles) filename_column two_records "/img"
            (FieldsList [ItemStr "site"]) ≠ Err (KeyError c)).
Proof.
  split.
  - destruct (proj1 (map_metadata_field_check (FS := two_tiles) filename_column
                       two_records "/img" (FieldsList [ItemStr "zone"]))
                [] (record "s1" (GPolygon unit_a)) [record "s1" (GPolygon unit_b)]
                ([], []) "zone") as (col & _ & _ & Herr).
    + reflexivity.
    + reflexivity.
    + vm_compute. reflexivity.
    + vm_compute. left.
    + vm_compute. reflexivity.
    + by exists col.
  - apply (proj2 (map_metadata_field_check (FS := two_tiles) filename_column
                    two_records "/img" (FieldsList [ItemStr "site"]))).
    + intros row c [->|[->|Hin%elem_of_nil]%elem_of_cons]%elem_of_cons;
        [vm_compute; discriminate..|done].
    + intros path c. simpl. repeat case_decide; discriminate.
    + intros path c. discriminate.
    + intros pre row post acc col Hsplit _ _ Hcol.
      assert (Hin : row ∈ gdf_rows two_records).
      { rewrite Hsplit. apply elem_of_app. right. left. }
      vm_compute in Hcol. apply list_elem_of_singleton in Hcol. subst col.
      apply elem_of_cons in Hin as [->|Hin]; [vm_compute; eauto|].
      apply list_elem_of_singleton in Hin. subst row. vm_compute. eauto.
Defined.

(** ** The spatial mapper *)

Section Dedup.
Context {A : Type} `{EqDecision A}.

Lemma drop_duplicates_from (kept l : list A) :
  NoDup kept →
  let out := foldl (fun kept x => if decide (x ∈ kept) then kept else kept ++ [x])
               kept l in
  NoDup out ∧ ∀ x, x ∈ out ↔ x ∈ kept ∨ x ∈ l.
Proof.
  revert kept. induction l as [|y l IH]; intros kept Hnd; simpl.
  { split; [done|]. intros x. rewrite elem_of_nil. tauto. }
  destruct (decide (y ∈ kept)) as [Hy|Hy].
  - destruct (IH kept Hnd) as [IHn IHm]. split; [done|].
    intros x. rewrite IHm, elem_of_cons.
    split; [tauto|]. intros [?|[->|?]]; tauto.
  - destruct (IH (kept ++ [y])) as [IHn IHm].
    { apply NoDup_app. split; [done|]. split; [|apply NoDup_singleton].
      intros x Hx ->%list_elem_of_singleton. done. }
    split; [done|]. intros x.
    rewrite IHm, elem_of_app, list_elem_of_singleton, elem_of_cons. tauto.
Qed.

Lemma NoDup_drop_duplicates (l : list A) : NoDup (pandas.drop_duplicates l).
Proof. apply (drop_duplicates_from [] l), NoDup_nil_2. Qed.

Lemma elem_of_drop_duplicates (l : list A) (x : A) :
  x ∈ pandas.drop_duplicates l ↔ x ∈ l.
Proof.
  destruct (drop_duplicates_from [] l (NoDup_nil_2)) as [_ H].
  unfold pandas.drop_duplicates. rewrite H, elem_of_nil. tauto.
Qed.

(** In a list without duplicates, the elements with a property that only
    [x] has are [x] alone. *)
Lemma filter_unique (P : A → Prop) `{∀ x, Decision (P x)} (l : list A) (x : A) :
  NoDup l → x ∈ l → P x → (∀ y, y ∈ l → P y → y = x) → filter P l = [x].
Proof.
  induction l as [|z l IH]; intros Hnd Hin HP Huniq.
  { by apply elem_of_nil in Hin. }
  apply NoDup_cons in Hnd as [Hz Hnd].
  assert (Hnone : ∀ l', (∀ y, y ∈ l' → ¬ P y) → filter P l' = []).
  { intros l' Hno. induction l' as [|w l' IH']; [done|].
    rewrite filter_cons_False by (apply Hno; by left).
    apply IH'. intros y Hy. apply Hno. by right. }
  apply elem_of_cons in Hin as [->|Hin].
  - rewrite filter_cons_True by done. f_equal. apply Hnone.
    intros y Hy HPy. assert (y = z) as -> by (apply Huniq; [by right|done]). done.
  - destruct (decide (P z)) as [HPz|HPz].
    + assert (z = x) as -> by (apply Huniq; [by left|done]). done.
    + rewrite filter_cons_False by done.
      apply IH; [done..|]. intros y Hy. apply Huniq. by right.
Qed.
End Dedup.

Section MapperFacts.
Context `{E : shapely.Engine} `{FS : FileSystem}.

Lemma mapM_clip_row (tile_polygon : Geometry) (hits : list Row) :
  (∀ r, r ∈ hits → row_intersects "geometry" tile_polygon r = true) →
  mapM (clip_row tile_polygon) hits = Ok (clip_of tile_polygon <$> hits).
Proof.
  induction hits as [|r hits IH]; intros Hhits; [done|].
  assert (Hr : row_intersects "geometry" tile_polygon r = true)
    by (apply Hhits; by left).
  cbn [mapM]. rewrite IH by (intros r' Hr'; apply Hhits; by right).
  unfold row_intersects in Hr. unfold clip_row, clip_of, pandas.getitem.
  destruct (r !! "geometry") as [[]|] eqn:Hg; try done.
  simpl. unfold mret, result_ret. by rewrite Hg.
Qed.

Lemma tile_pairs_fst {A B C : Type} (a : A) (f : B → C) (l : list B) :
  ((fun r => (a, f r)) <$> l).*1 = replicate (length l) a
  ∧ ((fun r => (a, f r)) <$> l).*2 = f <$> l.
Proof.
  induction l as [|x l [IH1 IH2]]; [done|].
  split; simpl; f_equal; assumption.
Qed.

Lemma map_tile_Ok (gdf : GeoDataFrame) (rows : list Row) (geometry : list PyVal)
    (path : string) (src : rasterio.Dataset) :
  gdf_geometry_name gdf = "geometry" →
  rasterio_open path = Ok src →
  map_tile gdf (rows, geometry) path =
  Ok (rows ++ (tile_pairs gdf path).*1, geometry ++ (tile_pairs gdf path).*2).
Proof.
  intros Hname Hopen. unfold map_tile, tile_pairs. rewrite Hopen, Hname. simpl.
  destruct (decide (filter _ (gdf_rows gdf) = [])) as [Hnil|Hhits]; [done|].
  rewrite mapM_clip_row by (by intros r [Hr _]%list_elem_of_filter; apply Is_true_true).
  simpl.
  destruct (tile_pairs_fst (tile_row path src) (clip_of (footprint src))
              (filter (fun r => row_intersects "geometry" (footprint src) r)
                 (gdf_rows gdf))) as [-> ->].
  by rewrite length_fmap.
Qed.

Lemma fold_tiles_Ok (gdf : GeoDataFrame) (paths : list string)
    (rows : list Row) (geometry : list PyVal) :
  gdf_geometry_name gdf = "geometry" →
  (∀ path, path ∈ paths → is_ok (rasterio_open path) = true) →
  result_fold (map_tile gdf) (rows, geometry) paths =
  Ok (rows ++ (paths ≫= tile_pairs gdf).*1,
      geometry ++ (paths ≫= tile_pairs gdf).*2).
Proof.
  intros Hname. revert rows geometry.
  induction paths as [|path paths IH]; intros rows geometry Hopen.
  { simpl. by rewrite !app_nil_r. }
  destruct (rasterio_open path) as [src|e] eqn:Hsrc.
  2: { specialize (Hopen path). rewrite Hsrc in Hopen. discriminate Hopen. by left. }
  cbn [result_fold]. rewrite (map_tile_Ok _ _ _ _ _ Hname Hsrc).
  cbn [mbind result_bind].
  rewrite IH by (intros p Hp; apply Hopen; by right).
  rewrite bind_cons, !fmap_app, !app_assoc. done.
Qed.

Lemma GeoDataFrame_of_pairs (pairs : list (Row * PyVal)) (crs : option string) :
  gdf_rows (pandas.GeoDataFrame_of pairs.*1 pairs.*2 crs) =
  (fun rg => <["geometry" := rg.2]> rg.1) <$> pairs.
Proof.
  unfold pandas.GeoDataFrame_of. cbn [gdf_rows].
  induction pairs as [|[r g] pairs IH]; [done|].
  rewrite !fmap_cons. cbn [zip_with]. by rewrite IH.
Qed.

Lemma tile_row_path (path : string) (src : rasterio.Dataset) (g : PyVal) :
  (<["geometry" := g]> (tile_row path src)) !! "path" = Some (VStr path).
Proof. unfold tile_row. by simplify_map_eq. Qed.

Lemma row_intersects_geometry (tile_polygon : Geometry) (r : Row) :
  row_intersects "geometry" tile_polygon r = true →
  ∃ g, r !! "geometry" = Some (VGeom g)
       ∧ shapely.intersects g tile_polygon = true
       ∧ clip_of tile_polygon r = VGeom (shapely.intersection g tile_polygon).
Proof.
  unfold row_intersects, clip_of.
  destruct (r !! "geometry") as [[]|]; try done. eauto.
Qed.

(** What a pair appended for a tile is made of *)
Lemma elem_of_tile_pairs (gdf : GeoDataFrame) (path : string) (r : Row) (g : PyVal) :
  gdf_geometry_name gdf = "geometry" →
  (r, g) ∈ tile_pairs gdf path →
  ∃ src, rasterio_open path = Ok src ∧ r = tile_row path src
    ∧ ((∀ hit, hit ∈ gdf_rows gdf →
          row_intersects "geometry" (footprint src) hit = false) →
       g = VGeom empty_polygon).
Proof.
  intros Hname. unfold tile_pairs. rewrite Hname.
  destruct (rasterio_open path) as [src|e]; [|by intros ?%elem_of_nil].
  intros Hin. exists src. split; [done|].
  destruct (decide (filter _ (gdf_rows gdf) = [])) as [Hnil|Hhits].
  - apply list_elem_of_singleton in Hin. by injection Hin as -> ->.
  - apply list_elem_of_fmap in Hin as (hit & [= -> ->] & Hhit).
    split; [done|]. intros Hnone.
    apply list_elem_of_filter in Hhit as [Hyes Hhit].
    apply Is_true_true in Hyes. rewrite (Hnone hit Hhit) in Hyes. done.
Qed.

Lemma elem_of_exploded (gdf : GeoDataFrame) (paths : list string) (x : Row) :
  x ∈ exploded gdf paths ↔
  ∃ path r g part,
    path ∈ paths ∧ (r, VGeom g) ∈ tile_pairs gdf path
    ∧ part ∈ get_parts g ∧ x = <["geometry" := VGeom part]> r.
Proof.
  unfold exploded, pandas.explode. cbn [gdf_rows gdf_geometry_name].
  rewrite GeoDataFrame_of_pairs, list_elem_of_bind. split.
  - intros (row & Hx & Hrow).
    apply list_elem_of_fmap in Hrow as ([r g] & -> & Hpair).
    apply list_elem_of_bind in Hpair as (path & Hpair & Hpath).
    cbn [fst snd] in Hx. rewrite lookup_insert_eq in Hx.
    destruct g as [| | | | | |g| |]; try by apply elem_of_nil in Hx.
    apply list_elem_of_fmap in Hx as (part & -> & Hpart).
    exists path, r, g, part. by rewrite insert_insert_eq.
  - intros (path & r & g & part & Hpath & Hpair & Hpart & ->).
    exists (<["geometry" := VGeom g]> r). split.
    + rewrite lookup_insert_eq. apply list_elem_of_fmap.
      exists part. by rewrite insert_insert_eq.
    + apply list_elem_of_fmap. exists (r, VGeom g). split; [done|].
      apply list_elem_of_bind. eauto.
Qed.

(** C4, as amended: when the rasters that pass the file-name filter can
    all be opened (the frame having its file names in the column
    [filename] and its geometries in the column [geometry], and an
    intersection that exists having at least one part), the mapper returns
    a frame in which every such raster has a row, and a raster that no
    record intersects has exactly one row, whose geometry is the empty
    polygon. *)
Theorem map_geometry_to_geotiffs_complete (gdf : GeoDataFrame)
    (img_dir : string) (recurse : bool) (orig_stems : list string) :
  orig_stems_of gdf = Ok orig_stems →
  gdf_geometry_name gdf = "geometry" →
  let image_paths := image_paths_of orig_stems img_dir recurse in
  (∀ path, path ∈ image_paths → is_ok (rasterio_open path) = true) →
  (∀ g tile_polygon, shapely.intersects g tile_polygon = true →
                     get_parts (shapely.intersection g tile_polygon) ≠ []) →
  ∃ out,
    map_geometry_to_geotiffs gdf img_dir recurse = Ok out
    ∧ (∀ path, path ∈ image_paths →
         ∃ row, row ∈ gdf_rows out ∧ row !! "path" = Some (VStr path))
    ∧ (∀ path src,
         path ∈ image_paths → rasterio_open path = Ok src →
         (∀ r, r ∈ gdf_rows gdf →
               row_intersects "geometry" (footprint src) r = false) →
         filter (fun row => row !! "path" = Some (VStr path)) (gdf_rows out) =
         [<["geometry" := VGeom empty_polygon]> (tile_row path src)]).
Proof.
  intros Hstems Hname image_paths Hopen Hparts.
  unfold map_geometry_to_geotiffs. rewrite Hstems. cbn [mbind result_bind].
  fold image_paths. rewrite (fold_tiles_Ok gdf image_paths [] [] Hname Hopen).
  cbn [mbind result_bind app].
  fold (exploded gdf image_paths).
  eexists. split; [reflexivity|]. cbn [gdf_rows].
  assert (Hplace : ∀ path src,
    path ∈ image_paths → rasterio_open path = Ok src →
    (∀ r, r ∈ gdf_rows gdf → row_intersects "geometry" (footprint src) r = false) →
    <["geometry" := VGeom empty_polygon]> (tile_row path src)
      ∈ exploded gdf image_paths).
  { intros path src Hpath Hsrc Hnone. apply elem_of_exploded.
    exists path, (tile_row path src), empty_polygon, empty_polygon.
    split; [done|]. split; [|split; [by left|done]].
    unfold tile_pairs. rewrite Hsrc, Hname.
    rewrite decide_True; [by left|].
    apply elem_of_nil_inv. intros r [Hyes Hr]%list_elem_of_filter.
    apply Is_true_true in Hyes. by rewrite (Hnone r Hr) in Hyes. }
  split.
  - intros path Hpath.
    destruct (rasterio_open path) as [src|e] eqn:Hsrc.
    2: { specialize (Hopen path Hpath). by rewrite Hsrc in Hopen. }
    set (hits := filter (fun r => row_intersects "geometry" (footprint src) r)
                   (gdf_rows gdf)).
    destruct hits as [|hit hits'] eqn:Hhits.
    + exists (<["geometry" := VGeom empty_polygon]> (tile_row path src)).
      split; [|apply tile_row_path].
      apply elem_of_drop_duplicates, Hplace; [done..|].
      intros r Hr. destruct (row_intersects _ _ r) eqn:Hyes; [|done].
      assert (r ∈ hits) as Hin
        by (apply list_elem_of_filter; split; [by apply Is_true_true|done]).
      rewrite Hhits in Hin. by apply elem_of_nil in Hin.
    + assert (Hhit : hit ∈ hits) by (rewrite Hhits; by left).
      apply list_elem_of_filter in Hhit as [Hyes Hhit].
      apply Is_true_true, row_intersects_geometry in Hyes
        as (g & Hg & Hint & Hclip).
      destruct (get_parts (shapely.intersection g (footprint src)))
        as [|part parts] eqn:Hp; [by apply Hparts in Hint|].
      exists (<["geometry" := VGeom part]> (tile_row path src)).
      split; [|apply tile_row_path].
      apply elem_of_drop_duplicates, elem_of_exploded.
      exists path, (tile_row path src), (shapely.intersection g (footprint src)), part.
      split; [done|]. split; [|split; [rewrite Hp; by left|done]].
      unfold tile_pairs. rewrite Hsrc, Hname. fold hits. rewrite Hhits.
      rewrite decide_False by done. rewrite <- Hclip.
      apply list_elem_of_fmap. exists hit. split; [done|by left].
  - intros path src Hpath Hsrc Hnone.
    apply filter_unique.
    + apply NoDup_drop_duplicates.
    + by apply elem_of_drop_duplicates, Hplace.
    + apply tile_row_path.
    + intros y Hy Hypath. rewrite elem_of_drop_duplicates in Hy.
      apply elem_of_exploded in Hy
        as (path' & r & g & part & Hpath' & Hpair & Hpart & ->).
      destruct (elem_of_tile_pairs gdf path' r (VGeom g) Hname Hpair)
        as (src' & Hsrc' & -> & Hempty).
      rewrite tile_row_path in Hypath. injection Hypath as ->.
      rewrite Hsrc in Hsrc'. injection Hsrc' as <-.
      specialize (Hempty Hnone). injection Hempty as ->.
      apply list_elem_of_singleton in Hpart. by subst part.
Qed.
End MapperFacts.

Lemma map_geometry_to_geotiffs_complete_witness :
  ∃ out,
    map_geometry_to_geotiffs (E := boxes.engine) (FS := two_tiles)
      two_records "/img" true = Ok out
    ∧ (∀ path, path ∈ ["/img/s1.tif"; "/img/s1_far.tif"] →
         ∃ row, row ∈ gdf_rows out ∧ row !! "path" = Some (VStr path))
    ∧ filter (fun row => row !! "path" = Some (VStr "/img/s1_far.tif"))
        (gdf_rows out) =
      [<["geometry" := VGeom empty_polygon]>
         (tile_row "/img/s1_far.tif" (tile_at 100 100))].
Proof.
  destruct (map_geometry_to_geotiffs_complete (E := boxes.engine)
              (FS := two_tiles) two_records "/img" true ["s1"])
    as (out & Hout & Hall & Hone).
  - vm_compute. reflexivity.
  - reflexivity.
  - intros path Hpath.
    change (path ∈ ["/img/s1.tif"; "/img/s1_far.tif"]) in Hpath.
    apply elem_of_cons in Hpath as [->|Hpath]; [vm_compute; reflexivity|].
    apply list_elem_of_singleton in Hpath. subst path. vm_compute. reflexivity.
  - intros g tile_polygon _. simpl. unfold boxes.intersection.
    destruct (boxes.overlap g tile_polygon) as [[[x0 y0] x1] y1]. discriminate.
  - exists out. split; [exact Hout|]. split; [exact Hall|].
    apply (Hone "/img/s1_far.tif" (tile_at 100 100)).
    + right. left.
    + vm_compute. reflexivity.
    + intros r Hr.
      apply elem_of_cons in Hr as [->|Hr]; [vm_compute; reflexivity|].
      apply list_elem_of_singleton in Hr. subst r. vm_compute. reflexivity.
Defined.

(** Without the condition on the rasters the completeness fails: of the two
    rasters that pass the filter here the second cannot be read, the call
    ends with its error, and no frame is returned in which the two rasters
    could have a row. *)
Lemma map_geometry_to_geotiffs_unreadable_raster :
  orig_stems_of two_records = Ok ["s1"]
  ∧ image_paths_of (FS := one_broken_tile) ["s1"] "/img" true =
      ["/img/s1.tif"; "/img/s1_bad.tif"]
  ∧ map_geometry_to_geotiffs (E := boxes.engine) (FS := one_broken_tile)
      two_records "/img" true = Err OSError
  ∧ ¬ ∃ out,
        map_geometry_to_geotiffs (E := boxes.engine) (FS := one_broken_tile)
          two_records "/img" true = Ok out
        ∧ ∀ path, path ∈ ["/img/s1.tif"; "/img/s1_bad.tif"] →
            ∃ row, row ∈ gdf_rows out ∧ row !! "path" = Some (VStr path).
Proof.
  assert (Hruns : map_geometry_to_geotiffs (E := boxes.engine)
                    (FS := one_broken_tile) two_records "/img" true = Err OSError)
    by (vm_compute; reflexivity).
  split; [vm_compute; reflexivity|].
  split; [vm_compute; reflexivity|]. split; [exact Hruns|].
  intros (out & Hout & _). rewrite Hruns in Hout. discriminate Hout.
Qed.

(** * Further properties *)

(** ** Merging and the readers of a geometry *)

Section MergeFacts.
Context `{E : shapely.Engine}.

Lemma merge_scan_length (polygon : Geometry) (flattened pending : list Geometry)
    (i : nat) (flattened' : list Geometry) (found : bool) :
  merge_scan polygon flattened i pending = Ok (flattened', found) →
  length flattened' = length flattened.
Proof.
  revert i. induction pending as [|flat pending IH]; intros i; simpl.
  { by intros [= <- <-]. }
  destruct (shapely.coverage_union flat polygon) as [union|e]; simpl; [|done].
  destruct (geoms union) as [parts|e]; simpl; [|done].
  destruct (first_genuine_part flat polygon parts) as [poly|]; [|apply IH].
  intros [= <- <-]. apply length_insert.
Qed.

Lemma merge_step_length (flattened flattened' : list Geometry) (polygon : Geometry) :
  merge_step flattened polygon = Ok flattened' →
  (length flattened ≤ length flattened' ≤ S (length flattened))%nat
  ∧ (1 ≤ length flattened')%nat.
Proof.
  unfold merge_step. destruct (decide (length flattened = 0%nat)) as [Hz|Hnz].
  { intros [= <-]. rewrite length_app. simpl. lia. }
  destruct (merge_scan polygon flattened 0 flattened) as [[l found]|e] eqn:Hscan;
    simpl; [|done].
  apply merge_scan_length in Hscan.
  destruct found; intros [= <-]; rewrite ?length_app; simpl; lia.
Qed.

Lemma merge_fold_length (flattened flattened' candidates : list Geometry) :
  result_fold merge_step flattened candidates = Ok flattened' →
  (length flattened ≤ length flattened' ≤ length flattened + length candidates)%nat
  ∧ (candidates ≠ [] → 1 ≤ length flattened')%nat.
Proof.
  revert flattened. induction candidates as [|polygon candidates IH];
    intros flattened; simpl.
  { intros [= <-]. split; [lia|done]. }
  destruct (merge_step flattened polygon) as [l|e] eqn:Hstep; simpl; [|done].
  intros Hrest. apply merge_step_length in Hstep.
  destruct (IH _ Hrest) as [Hlen _]. split; [lia|]. intros _. lia.
Qed.

(** X1: when flattening a MultiPolygon returns, the merged shapes are at
    most as many as the parts, and there is at least one as soon as there is
    a part: a merge replaces an accumulated shape, it never removes one. *)
Theorem get_geom_polygons_flatten_count (parts : list Polygon)
    (polygons : list Geometry) :
  get_geom_polygons (GMultiPolygon parts) true = Ok polygons →
  (length polygons ≤ length parts)%nat
  ∧ (parts ≠ [] → 1 ≤ length polygons)%nat.
Proof.
  simpl. intros Hfold. apply merge_fold_length in Hfold.
  rewrite !length_fmap in Hfold. destruct Hfold as [Hlen Hne].
  split; [simpl in Hlen; lia|]. intros Hparts. apply Hne.
  by destruct parts.
Qed.

Lemma merge_scan_no_merge (polygon : Geometry) (flattened pending : list Geometry)
    (i : nat) :
  (∀ flat, flat ∈ pending → no_merge flat polygon) →
  merge_scan polygon flattened i pending = Ok (flattened, false).
Proof.
  revert i. induction pending as [|flat pending IH]; intros i Hno; [done|].
  destruct (Hno flat) as (union & parts & Hu & Hp & Hf); [by left|].
  simpl. rewrite Hu. simpl. rewrite Hp. simpl. rewrite Hf.
  apply IH. intros f Hin. apply Hno. by right.
Qed.

Lemma merge_fold_no_merge (flattened candidates : list Geometry) :
  (∀ flat polygon, flat ∈ flattened ++ candidates → polygon ∈ candidates →
                   no_merge flat polygon) →
  result_fold merge_step flattened candidates = Ok (flattened ++ candidates).
Proof.
  revert flattened. induction candidates as [|polygon candidates IH];
    intros flattened Hno; simpl.
  { by rewrite app_nil_r. }
  assert (Hstep : merge_step flattened polygon = Ok (flattened ++ [polygon])).
  { unfold merge_step. destruct (decide (length flattened = 0%nat)); [done|].
    rewrite merge_scan_no_merge; [done|].
    intros flat Hflat. apply Hno; [|by left].
    apply elem_of_app. by left. }
  rewrite Hstep. simpl. rewrite IH; [by rewrite <- app_assoc|].
  intros flat p Hflat Hp. apply Hno; [|by right].
  rewrite <- app_assoc in Hflat. exact Hflat.
Qed.

(** X2: when the coverage union of no two parts has a new part, flattening
    returns what the plain decomposition returns: the normalized parts in
    their order. *)
Theorem get_geom_polygons_flatten_no_merge (parts : list Polygon) :
  (∀ p q, p ∈ parts → q ∈ parts →
          no_merge (shapely.normalize (GPolygon p)) (shapely.normalize (GPolygon q))) →
  get_geom_polygons (GMultiPolygon parts) true =
  get_geom_polygons (GMultiPolygon parts) false.
Proof.
  intros Hno. simpl. rewrite merge_fold_no_merge; [done|].
  intros flat polygon Hflat Hpoly. simpl in Hflat.
  apply list_elem_of_fmap in Hflat as (gp & -> & Hgp).
  apply list_elem_of_fmap in Hgp as (p & -> & Hp).
  apply list_elem_of_fmap in Hpoly as (gq & -> & Hgq).
  apply list_elem_of_fmap in Hgq as (q & -> & Hq).
  by apply Hno.
Qed.

(** X3: the merge is greedy: the candidate replaces the first accumulated
    shape with which its coverage union has a new part; the shapes after it
    are left as they are and are not looked at, whatever the library would
    say about them. *)
Theorem merge_step_first_match (before after : list Geometry)
    (flat polygon union poly : Geometry) (parts : list Geometry) :
  (∀ earlier, earlier ∈ before → no_merge earlier polygon) →
  shapely.coverage_union flat polygon = Ok union →
  geoms union = Ok parts →
  first_genuine_part flat polygon parts = Some poly →
  merge_step (before ++ flat :: after) polygon = Ok (before ++ poly :: after).
Proof.
  intros Hbefore Hu Hp Hf. unfold merge_step.
  rewrite decide_False by (rewrite length_app; simpl; lia).
  assert (Hscan : ∀ done_ i, i = length done_ →
    merge_scan polygon (done_ ++ before ++ flat :: after) i (before ++ flat :: after) =
    Ok (done_ ++ before ++ poly :: after, true)).
  { clear -Hbefore Hu Hp Hf. induction before as [|x before IH]; intros done_ i ->.
    - simpl. rewrite Hu. simpl. rewrite Hp. simpl. rewrite Hf.
      do 2 f_equal. rewrite insert_app_r_alt by done.
      by rewrite Nat.sub_diag.
    - destruct (Hbefore x) as (u & ps & Hxu & Hxp & Hxf); [by left|].
      simpl. rewrite Hxu. simpl. rewrite Hxp. simpl. rewrite Hxf.
      specialize (IH (fun e He => Hbefore e (proj2 (elem_of_cons _ _ _) (or_intror He)))
                     (done_ ++ [x]) (S (length done_))).
      rewrite <- !app_assoc in IH. simpl in IH. apply IH.
      rewrite length_app. simpl. lia. }
  specialize (Hscan [] 0%nat eq_refl). simpl in Hscan. by rewrite Hscan.
Qed.

(** X4: the three readers of a geometry agree part by part.  A Polygon
    gives one polygon, one box and one ring.  A MultiPolygon of k parts
    gives k polygons, k boxes and k rings, the i-th of each made from the
    i-th part, and nothing is printed.  Any other kind makes the
    decomposition and the point extractor raise the same error, while the
    box extractor returns no box and prints the diagnostic. *)
Theorem polygon_readers_agree (geom : Geometry) :
  match geom with
  | GPolygon p =>
      get_geom_polygons geom false = Ok [shapely.normalize geom]
      ∧ get_polygon_bboxes geom = ([bbox_of geom], [])
      ∧ get_polygon_points geom = Ok (inl (exterior p))
  | GMultiPolygon parts =>
      ∃ polygons boxes rings,
        get_geom_polygons geom false = Ok polygons
        ∧ get_polygon_bboxes geom = (boxes, [])
        ∧ get_polygon_points geom = Ok (inr rings)
        ∧ length polygons = length parts
        ∧ length boxes = length parts
        ∧ length rings = length parts
        ∧ ∀ i part, parts !! i = Some part →
            polygons !! i = Some (shapely.normalize (GPolygon part))
            ∧ boxes !! i = Some (bbox_of (GPolygon part))
            ∧ rings !! i = Some (exterior part)
  | _ =>
      get_geom_polygons geom false = Err (ValueError "Unknown geometry type")
      ∧ get_polygon_points geom = Err (ValueError "Unknown geometry type")
      ∧ get_polygon_bboxes geom = ([], ["Unknown geometry type"])
  end.
Proof.
  destruct geom as [| | |p| | |parts|]; try done.
  eexists _, _, _. repeat (split; [reflexivity|]).
  rewrite !length_fmap. repeat (split; [reflexivity|]).
  intros i part Hpart. rewrite !list_lookup_fmap, Hpart. done.
Qed.
End MergeFacts.

Lemma get_geom_polygons_flatten_count_witness :
  (length [GPolygon unit_a; GPolygon unit_b] ≤ length [unit_a; unit_b])%nat
  ∧ ([unit_a; unit_b] ≠ [] → 1 ≤ length [GPolygon unit_a; GPolygon unit_b])%nat.
Proof.
  apply (get_geom_polygons_flatten_count (E := boxes.engine)).
  vm_compute. reflexivity.
Defined.

Lemma get_geom_polygons_flatten_no_merge_witness :
  get_geom_polygons (E := boxes.engine) (GMultiPolygon [unit_a; unit_b]) true =
  get_geom_polygons (E := boxes.engine) (GMultiPolygon [unit_a; unit_b]) false.
Proof.
  apply (get_geom_polygons_flatten_no_merge (E := boxes.engine)).
  intros p q Hp Hq.
  apply elem_of_cons in Hp as [->|Hp]; [|apply list_elem_of_singleton in Hp; subst p];
    (apply elem_of_cons in Hq as [->|Hq]; [|apply list_elem_of_singleton in Hq; subst q]);
    eexists _, _; (split; [reflexivity|]); (split; [reflexivity|]);
    vm_compute; reflexivity.
Defined.

Lemma merge_step_first_match_witness :
  merge_step (E := overlap_engine)
    ([GPolygon unit_a] ++ GPolygon square_a :: [GPolygon unit_b])
    (GPolygon square_b) =
  Ok ([GPolygon unit_a] ++ GPolygon squares_union :: [GPolygon unit_b]).
Proof.
  apply (merge_step_first_match (E := overlap_engine) [GPolygon unit_a]
           [GPolygon unit_b] (GPolygon square_a) (GPolygon square_b)
           (GMultiPolygon [squares_union]) (GPolygon squares_union)
           [GPolygon squares_union]).
  - intros earlier Hin. apply list_elem_of_singleton in Hin. subst earlier.
    eexists _, _. split; [reflexivity|]. split; [reflexivity|].
    vm_compute. reflexivity.
  - reflexivity.
  - reflexivity.
  - vm_compute. reflexivity.
Defined.

(** ** The parser of coordinate strings *)

Lemma string_length_app (s1 s2 : string) :
  String.length (s1 +:+ s2) = (String.length s1 + String.length s2)%nat.
Proof. induction s1 as [|ch s1 IH]; simpl; [done|]. by rewrite IH. Qed.

Lemma string_get_app_l (s1 s2 : string) (i : nat) :
  (i < String.length s1)%nat → String.get i (s1 +:+ s2) = String.get i s1.
Proof.
  revert i. induction s1 as [|ch s1 IH]; intros i Hi; simpl in *; [lia|].
  destruct i as [|i]; [done|]. apply IH. lia.
Qed.

Lemma string_get_app_r (s1 s2 : string) (i : nat) :
  String.get (String.length s1 + i) (s1 +:+ s2) = String.get i s2.
Proof. induction s1 as [|ch s1 IH]; simpl; [done|]. apply IH. Qed.

Lemma substring_prefix_all (s1 s2 : string) :
  String.substring 0 (String.length s1) (s1 +:+ s2) = s1.
Proof. induction s1 as [|ch s1 IH]; simpl; [by destruct s2|]. by rewrite IH. Qed.

Lemma substring_middle (s1 s2 s3 : string) :
  String.substring (String.length s1) (String.length s2) (s1 +:+ s2 +:+ s3) = s2.
Proof.
  induction s1 as [|ch s1 IH]; [exact (substring_prefix_all s2 s3)|exact IH].
Qed.

Lemma no_digit_get (s : string) (i : nat) (ch : ascii) :
  no_digit s = true → String.get i s = Some ch → pystr.isdigit ch = false.
Proof.
  revert i. induction s as [|c s IH]; intros i Hno Hget; simpl in *; [done|].
  apply andb_true_iff in Hno as [Hc Hs].
  destruct i as [|i]; [|by eapply IH].
  injection Hget as <-. by apply negb_true_iff.
Qed.

Lemma mapM_result_Ok {A B : Type} (f : A → result B) (l : list A) (r : list B) :
  mapM f l = Ok r → Forall2 (fun x y => f x = Ok y) l r.
Proof.
  revert r. induction l as [|x l IH]; intros r; cbn [mapM].
  { intros [= <-]. constructor. }
  destruct (f x) as [y|e] eqn:Hx; simpl; [|done].
  destruct (mapM f l) as [k|e] eqn:Hl; simpl; [|done].
  intros [= <-]. constructor; [done|]. by apply IH.
Qed.

(** A loop over a list raises the error of one of its elements. *)
Lemma mapM_result_Err {A B : Type} (f : A → result B) (l : list A) (e : exception) :
  mapM f l = Err e → ∃ x, x ∈ l ∧ f x = Err e.
Proof.
  induction l as [|x l IH]; cbn [mapM]; [done|].
  destruct (f x) as [y|e'] eqn:Hx; simpl.
  - destruct (mapM f l) as [k|e'] eqn:Hl; simpl; [done|].
    intros [= ->]. destruct IH as (x' & Hin & Hx'); [done|].
    exists x'. split; [by right|done].
  - intros [= ->]. exists x. split; [by left|done].
Qed.

Lemma split_go_nonempty (sep : string) (skip : nat) (cur s : string) :
  pystr.split_go sep skip cur s ≠ [].
Proof.
  revert skip cur. induction s as [|ch s IH]; intros skip cur; simpl; [done|].
  destruct skip; [|apply IH].
  match goal with |- context [if ?b then _ else _] => destruct b end;
    [done|apply IH].
Qed.

Section ParserFacts.
Context `{E : shapely.Engine}.
Variable py_float : string → option Q.

Lemma parse_polygon_str_tokens (polygon_str : string) :
  parse_polygon_str py_float polygon_str =
  VList <$> mapM (parse_point py_float) (coordinate_tokens polygon_str).
Proof.
  unfold parse_polygon_str, coordinate_tokens.
  by destruct (strip_bounds _ _ _ _ _) as [start end_].
Qed.

(** The body of the loop returns a pair of floats on a token that holds
    two numbers, and raises a [ValueError] on any other. *)
Lemma parse_point_outcome (point : string) :
  match parse_point py_float point with
  | Ok v => is_float_pair v ∧ is_coordinate_pair py_float point
  | Err e => (∃ msg, e = ValueError msg) ∧ ¬ is_coordinate_pair py_float point
  end.
Proof.
  unfold parse_point, is_coordinate_pair.
  destruct (pystr.fields _) as [|x [|y [|z ws]]];
    try (split; [by eexists|]; by intros (x' & y' & [=] & _)).
  destruct (py_float x) as [fx|] eqn:Hx, (py_float y) as [fy|] eqn:Hy.
  - split; [by exists fx, fy|]. exists x, y. rewrite Hx, Hy. eauto.
  - split; [by eexists|]. intros (x' & y' & [= <- <-] & _ & Hy').
    rewrite Hy in Hy'. by destruct Hy'.
  - split; [by eexists|]. intros (x' & y' & [= <- <-] & Hx' & _).
    rewrite Hx in Hx'. by destruct Hx'.
  - split; [by eexists|]. intros (x' & y' & [= <- <-] & Hx' & _).
    rewrite Hx in Hx'. by destruct Hx'.
Qed.

(** X5: on ASCII text the parser of coordinate strings returns exactly when
    every token between the separators holds two numbers, and then it
    returns one pair of floats for every token, at least one; as soon as
    a token is anything else, it raises a [ValueError]. *)
Theorem parse_polygon_str_points (polygon_str : string) :
  pystr.isascii polygon_str = true →
  let tokens := coordinate_tokens polygon_str in
  tokens ≠ []
  ∧ (∀ v, parse_polygon_str py_float polygon_str = Ok v →
          ∃ points,
            v = VList points ∧ length points = length tokens
            ∧ Forall is_float_pair points
            ∧ Forall (is_coordinate_pair py_float) tokens)
  ∧ (∀ e, parse_polygon_str py_float polygon_str = Err e →
          (∃ msg, e = ValueError msg)
          ∧ Exists (fun token => ¬ is_coordinate_pair py_float token) tokens).
Proof.
  intros _ tokens. rewrite parse_polygon_str_tokens. fold tokens.
  split; [|split].
  - unfold tokens, coordinate_tokens.
    destruct (strip_bounds _ _ _ _ _) as [start end_].
    apply (split_go_nonempty ", " 0 EmptyString).
  - intros v.
    destruct (mapM (parse_point py_float) tokens) as [points|e] eqn:Hmap; [|done].
    simpl. intros [= <-]. exists points. split; [done|].
    apply mapM_result_Ok in Hmap.
    split; [symmetry; by eapply Forall2_length|].
    clear -Hmap. induction Hmap as [|token point tokens points Hp _ [IH1 IH2]];
      [by split|].
    pose proof (parse_point_outcome token) as Hout. rewrite Hp in Hout.
    destruct Hout. split; by constructor.
  - intros e.
    destruct (mapM (parse_point py_float) tokens) as [points|e'] eqn:Hmap; [done|].
    simpl. intros [= ->].
    apply mapM_result_Err in Hmap as (token & Hin & Htoken).
    pose proof (parse_point_outcome token) as Hout. rewrite Htoken in Hout.
    destruct Hout as [Hmsg Hbad]. split; [done|].
    apply Exists_exists. eauto.
Qed.
(** The loop keeps the two indices on their side of the digit-bounded core. *)
Lemma strip_bounds_core (pre core post : string) (fuel : nat) (start end_ : Z) :
  no_digit pre = true → no_digit post = true → digit_bounded core = true →
  let s := pre +:+ core +:+ post in
  let p := Z.of_nat (String.length pre) in
  let c := Z.of_nat (String.length core) in
  let size := Z.of_nat (String.length s) in
  (0 ≤ start ≤ p)%Z → (p + c - 1 ≤ end_ ≤ size - 1)%Z →
  let '(start', end') := strip_bounds fuel s size start end_ in
  (0 ≤ start' ≤ p)%Z ∧ (p + c - 1 ≤ end' ≤ size - 1)%Z.
Proof.
  intros Hpre Hpost Hcore s p c size.
  assert (Hstart : ∀ i, (0 ≤ i < p)%Z → pystr.isdigit_at s i = false).
  { intros i Hi. unfold pystr.isdigit_at, s.
    rewrite string_get_app_l by lia.
    destruct (String.get _ pre) as [ch|] eqn:Hget; [|done].
    eapply no_digit_get; [exact Hpre|exact Hget]. }
  assert (Hend : ∀ i, (p + c ≤ i)%Z → pystr.isdigit_at s i = false).
  { intros i Hi. unfold pystr.isdigit_at, s.
    replace (Z.to_nat i) with
      (String.length pre + (String.length core + (Z.to_nat i - String.length pre
                                                  - String.length core)))%nat by lia.
    rewrite !string_get_app_r.
    destruct (String.get _ post) as [ch|] eqn:Hget; [|done].
    eapply no_digit_get; [exact Hpost|exact Hget]. }
  revert start end_. induction fuel as [|fuel IH]; intros start end_ Hs He;
    [done|].
  cbn [strip_bounds].
  destruct (strip_continues s size start end_); [|done].
  apply IH.
  - destruct (pystr.isdigit_at s start) eqn:Hd; [done|].
    destruct (decide (start = p)) as [->|Hne]; [|lia].
    exfalso. apply andb_true_iff in Hcore as [H0 _].
    unfold pystr.isdigit_at in Hd, H0. unfold s, p in Hd.
    rewrite Nat2Z.id in Hd.
    replace (String.length pre) with (String.length pre + 0)%nat in Hd at 1 by lia.
    rewrite string_get_app_r in Hd.
    assert (0 < String.length core)%nat
      by (destruct core; [done|simpl; lia]).
    rewrite string_get_app_l in Hd by done.
    change (Z.to_nat 0) with 0%nat in H0. congruence.
  - destruct (pystr.isdigit_at s end_) eqn:Hd; [done|].
    destruct (decide (end_ = p + c - 1)%Z) as [->|Hne]; [|lia].
    exfalso. apply andb_true_iff in Hcore as [H0 H1].
    assert (0 < String.length core)%nat
      by (destruct core; [done|simpl; lia]).
    unfold pystr.isdigit_at in Hd, H1. unfold s, p, c in Hd.
    replace (Z.to_nat (Z.of_nat (String.length pre) + Z.of_nat (String.length core) - 1))
      with (String.length pre + (String.length core - 1))%nat in Hd by lia.
    rewrite string_get_app_r in Hd.
    rewrite string_get_app_l in Hd by lia.
    replace (Z.to_nat (Z.of_nat (String.length core) - 1))
      with (String.length core - 1)%nat in H1 by lia.
    congruence.
Qed.

Lemma isdigit_at_before (pre rest : string) (i : Z) :
  no_digit pre = true → (0 ≤ i < Z.of_nat (String.length pre))%Z →
  pystr.isdigit_at (pre +:+ rest) i = false.
Proof.
  intros Hpre Hi. unfold pystr.isdigit_at.
  rewrite string_get_app_l by lia.
  destruct (String.get _ pre) as [ch|] eqn:Hget; [|done].
  eapply no_digit_get; [exact Hpre|exact Hget].
Qed.

Lemma isdigit_at_after (pre core post : string) (i : Z) :
  no_digit post = true →
  (Z.of_nat (String.length pre) + Z.of_nat (String.length core) ≤ i)%Z →
  pystr.isdigit_at (pre +:+ core +:+ post) i = false.
Proof.
  intros Hpost Hi. unfold pystr.isdigit_at.
  replace (Z.to_nat i) with
    (String.length pre + (String.length core + (Z.to_nat i - String.length pre
                                                - String.length core)))%nat by lia.
  rewrite !string_get_app_r.
  destruct (String.get _ post) as [ch|] eqn:Hget; [|done].
  eapply no_digit_get; [exact Hpost|exact Hget].
Qed.

Lemma digit_bounded_nonempty (core : string) :
  digit_bounded core = true → (0 < String.length core)%nat.
Proof. destruct core; [done|simpl; lia]. Qed.

Lemma strip_bounds_finds_core (pre core post : string) :
  no_digit pre = true → no_digit post = true → digit_bounded core = true →
  let s := pre +:+ core +:+ post in
  let size := Z.of_nat (String.length s) in
  strip_bounds (String.length s) s size 0 (size - 1) =
  (Z.of_nat (String.length pre),
   (Z.of_nat (String.length pre) + Z.of_nat (String.length core) - 1)%Z).
Proof.
  intros Hpre Hpost Hcore s size.
  pose proof (digit_bounded_nonempty core Hcore) as Hlen.
  assert (Hsize : size = (Z.of_nat (String.length pre) + Z.of_nat (String.length core)
                          + Z.of_nat (String.length post))%Z).
  { unfold size, s. rewrite !string_length_app. lia. }
  pose proof (strip_bounds_core pre core post (String.length s) 0 (size - 1)
                Hpre Hpost Hcore) as Hinv.
  pose proof (parse_polygon_str_exit s) as Hexit.
  cbv zeta in Hinv, Hexit. fold s size in Hinv, Hexit.
  destruct (strip_bounds (String.length s) s size 0 (size - 1)) as [start end_].
  destruct Hinv as [Hs He]; [lia..|].
  unfold strip_continues in Hexit.
  destruct (Z.ltb_spec start end_) as [Hlt|Hge]; [|f_equal; lia].
  destruct (Z.ltb_spec start size) as [_|?]; [|lia].
  destruct (Z.leb_spec 0 end_) as [_|?]; [|lia].
  simpl in Hexit. apply negb_false_iff, andb_true_iff in Hexit as [Hds Hde].
  f_equal.
  - destruct (decide (start = Z.of_nat (String.length pre))) as [|Hne]; [done|].
    unfold s in Hds. rewrite isdigit_at_before in Hds by (done || lia). done.
  - destruct (decide (end_ = Z.of_nat (String.length pre)
                             + Z.of_nat (String.length core) - 1)%Z) as [|Hne]; [done|].
    unfold s in Hde. rewrite isdigit_at_after in Hde by (done || lia). done.
Qed.

Lemma parse_polygon_str_core (pre core post : string) :
  no_digit pre = true → no_digit post = true → digit_bounded core = true →
  parse_polygon_str py_float (pre +:+ core +:+ post) =
  VList <$> mapM (parse_point py_float) (pystr.split ", " core).
Proof.
  intros Hpre Hpost Hcore. unfold parse_polygon_str.
  pose proof (strip_bounds_finds_core pre core post Hpre Hpost Hcore) as Hstrip.
  cbv zeta in Hstrip. rewrite Hstrip.
  pose proof (digit_bounded_nonempty core Hcore) as Hlen.
  rewrite !string_length_app.
  destruct (Z.ltb_spec (Z.of_nat (String.length pre))
              (Z.of_nat (String.length pre + (String.length core + String.length post))))
    as [_|?]; [|lia].
  destruct (Z.leb_spec 0 (Z.of_nat (String.length pre) + Z.of_nat (String.length core) - 1))
    as [_|?]; [|lia].
  simpl andb. cbv iota. unfold pystr.slice.
  replace (Z.to_nat (Z.of_nat (String.length pre))) with (String.length pre) by lia.
  replace (Z.to_nat _) with (String.length core) by lia.
  by rewrite substring_middle.
Qed.

Lemma string_app_nil_r (s : string) : s +:+ EmptyString = s.
Proof.
  induction s as [|ch s IH]; [done|].
  change (String ch (s +:+ EmptyString) = String ch s). by rewrite IH.
Qed.

(** X6: what surrounds the coordinates is ignored: an ASCII text without
    digits before and after a string that starts and ends with a digit
    does not change what is parsed. *)
Theorem parse_polygon_str_strips (pre core post : string) :
  pystr.isascii pre = true → pystr.isascii post = true →
  no_digit pre = true → no_digit post = true → digit_bounded core = true →
  parse_polygon_str py_float (pre +:+ core +:+ post) =
  parse_polygon_str py_float core.
Proof.
  intros _ _ Hpre Hpost Hcore.
  rewrite (parse_polygon_str_core pre core post Hpre Hpost Hcore).
  pose proof (parse_polygon_str_core EmptyString core EmptyString eq_refl eq_refl Hcore)
    as Hself.
  rewrite string_app_nil_r in Hself. by rewrite <- Hself.
Qed.

(** X7: the normalizer returns on a geometry object and on nothing else:
    [None], numbers, strings, paths, tuples and lists all make it raise. *)
Theorem normalize_polygon_accepts (polygon : PyVal) :
  is_ok (normalize_polygon py_float polygon) =
  match polygon with VGeom _ => true | _ => false end.
Proof.
  assert (Hfail : ∀ r : result PyVal, (∃ e, r = Err e) → is_ok r = false)
    by (by intros r [e ->]).
  destruct polygon as [| | | |s|p|g|items|items]; try done.
  - apply Hfail. unfold normalize_polygon.
    destruct (parse_polygon_str_sequence py_float s) as [[e He]|[points Hp]].
    + rewrite He. by eexists.
    + rewrite Hp. apply normalize_sequence_fails.
  - by destruct g.
  - apply Hfail. apply (normalize_sequence_fails items).
  - apply Hfail. destruct items as [|x items]; [by eexists|].
    unfold normalize_polygon. destruct x; apply normalize_sequence_fails.
Qed.
End ParserFacts.

Lemma parse_polygon_str_points_witness :
  ∃ points,
    VList [VTuple [VFloat 1; VFloat 2]; VTuple [VFloat 3; VFloat 4]] = VList points
    ∧ length points = 2%nat.
Proof.
  destruct (proj1 (proj2 (parse_polygon_str_points whole_number_float "(1 2, 3 4)"
                     eq_refl)) _ eq_refl) as (points & Hv & Hlen & _).
  exists points. split; [exact Hv|exact Hlen].
Defined.

Lemma parse_polygon_str_strips_witness :
  parse_polygon_str whole_number_float ("POLYGON ((" +:+ "1 2, 3 4, 5 6" +:+ "))") =
  parse_polygon_str whole_number_float "1 2, 3 4, 5 6".
Proof.
  apply (parse_polygon_str_strips whole_number_float); vm_compute; reflexivity.
Defined.

(** ** The file-name filter *)

Lemma string_app_assoc (s1 s2 s3 : string) :
  (s1 +:+ s2) +:+ s3 = s1 +:+ s2 +:+ s3.
Proof.
  induction s1 as [|ch s1 IH]; [done|].
  change (String ch ((s1 +:+ s2) +:+ s3) = String ch (s1 +:+ s2 +:+ s3)).
  by rewrite IH.
Qed.

Lemma prefix_app (s rest : string) : String.prefix s (s +:+ rest) = true.
Proof.
  induction s as [|ch s IH]; [by destruct rest|].
  change (String.prefix (String ch s) (String ch (s +:+ rest)) = true).
  simpl. destruct (ascii_dec ch ch); [apply IH|done].
Qed.

Lemma prefix_inv (sub s : string) :
  String.prefix sub s = true → ∃ rest, s = sub +:+ rest.
Proof.
  revert s. induction sub as [|ch sub IH]; intros s; [by exists s|].
  destruct s as [|ch' s]; simpl; [done|].
  destruct (ascii_dec ch ch') as [->|]; [|done].
  intros Hp. destruct (IH s Hp) as [rest ->]. by exists rest.
Qed.

Lemma contains_prefix (sub s : string) :
  String.prefix sub s = true → pystr.contains sub s = true.
Proof. intros Hp. destruct s; cbn [pystr.contains]; by rewrite Hp. Qed.

Lemma contains_app (before sub after : string) :
  pystr.contains sub (before +:+ sub +:+ after) = true.
Proof.
  induction before as [|ch before IH].
  { change (pystr.contains sub (sub +:+ after) = true).
    apply contains_prefix, prefix_app. }
  change (pystr.contains sub (String ch (before +:+ sub +:+ after)) = true).
  cbn [pystr.contains]. rewrite IH. apply orb_true_r.
Qed.

Lemma contains_inv (sub s : string) :
  pystr.contains sub s = true → ∃ before after, s = before +:+ sub +:+ after.
Proof.
  induction s as [|ch s IH]; cbn [pystr.contains].
  - rewrite orb_false_r. intros [rest ->]%prefix_inv. by exists EmptyString, rest.
  - intros [Hp|Hc]%orb_true_iff.
    + apply prefix_inv in Hp as [rest ->]. by exists EmptyString, rest.
    + destruct (IH Hc) as (before & after & ->). by exists (String ch before), after.
Qed.

Lemma substring_short (s : string) (n : nat) :
  (String.length s ≤ n)%nat → String.substring 0 n s = s.
Proof.
  revert n. induction s as [|ch s IH]; intros n Hn; [by destruct n|].
  destruct n as [|n]; simpl in *; [lia|]. rewrite IH; [done|lia].
Qed.

Lemma substring_split (s : string) (n : nat) :
  (n ≤ String.length s)%nat →
  ∃ rest, s = String.substring 0 n s +:+ rest
          ∧ String.length (String.substring 0 n s) = n.
Proof.
  revert n. induction s as [|ch s IH]; intros n Hn.
  { destruct n; [by exists EmptyString|simpl in Hn; lia]. }
  destruct n as [|n]; [by exists (String ch s)|].
  destruct (IH n) as (rest & Hs & Hl); [simpl in Hn; lia|].
  exists rest. simpl. rewrite Hl. split; [|done].
  change (String ch s = String ch (String.substring 0 n s +:+ rest)).
  by rewrite <- Hs.
Qed.

(** X8: what the file-name filter lets through.  A raster stem passes
    exactly when some record name is a prefix of the stem, or the stem
    occurs somewhere inside some record name. *)
Theorem compare_stem_iff (stem : string) (names : list string) :
  compare_stem stem names = true ↔
  ∃ name, name ∈ names
    ∧ ((∃ rest, stem = name +:+ rest)
       ∨ (∃ before after, name = before +:+ stem +:+ after)).
Proof.
  unfold compare_stem. rewrite existsb_exists. split.
  - intros (name & Hin%list_elem_of_In & Hc). exists name. split; [done|].
    apply contains_inv in Hc as (before & after & Hname).
    destruct (decide (String.length stem ≤ String.length name)%nat) as [Hle|Hgt].
    + right. rewrite substring_short in Hname by done. eauto.
    + left. destruct (substring_split stem (String.length name)) as (rest & Hs & Hl);
        [lia|].
      assert (Hlen := f_equal String.length Hname).
      rewrite !string_length_app, Hl in Hlen.
      destruct before; [|simpl in Hlen; lia].
      destruct after; [|simpl in Hlen; lia].
      change (name = String.substring 0 (String.length name) stem +:+ EmptyString)
        in Hname.
      rewrite string_app_nil_r in Hname. exists rest. by rewrite Hname at 1.
  - intros (name & Hin & Hcase). exists name.
    split; [by apply list_elem_of_In|].
    destruct Hcase as [[rest ->]|(before & after & Hname)].
    + rewrite substring_prefix_all. apply contains_prefix.
      rewrite <- (string_app_nil_r name) at 2. apply prefix_app.
    + rewrite substring_short
        by (rewrite Hname, !string_length_app; lia).
      rewrite Hname. apply contains_app.
Qed.

(** ** Mapping: errors, soundness and counts *)

Section MapperErrors.
Context `{E : shapely.Engine} `{FS : FileSystem}.

Lemma filename_column_missing (rows : list Row) :
  (∃ row, row ∈ rows ∧ row !! "filename" = None) →
  mapM (fun row => pandas.getitem row "filename") rows = Err (KeyError "filename").
Proof.
  induction rows as [|r rows IH]; intros (row & Hin & Hnone).
  { by apply elem_of_nil in Hin. }
  cbn [mapM]. unfold pandas.getitem in *.
  destruct (r !! "filename") as [v|] eqn:Hr; simpl; [|done].
  apply elem_of_cons in Hin as [->|Hin]; [congruence|].
  rewrite IH by eauto. done.
Qed.

(** X9: a record without the column [filename] makes the mapper raise the
    [KeyError] of that column, before any raster is looked at. *)
Theorem map_geometry_to_geotiffs_missing_filename (gdf : GeoDataFrame)
    (img_dir : string) (recurse : bool) :
  (∃ row, row ∈ gdf_rows gdf ∧ row !! "filename" = None) →
  map_geometry_to_geotiffs gdf img_dir recurse = Err (KeyError "filename").
Proof.
  intros Hmiss. unfold map_geometry_to_geotiffs, orig_stems_of.
  by rewrite filename_column_missing.
Qed.

(** X10: a raster that passes the filter and cannot be opened is not
    skipped: its error ends the call, whatever was mapped before it. *)
Theorem map_geometry_to_geotiffs_open_error (gdf : GeoDataFrame)
    (img_dir : string) (recurse : bool) (orig_stems : list string)
    (before after : list string) (path : string) (e : exception) :
  orig_stems_of gdf = Ok orig_stems →
  gdf_geometry_name gdf = "geometry" →
  image_paths_of orig_stems img_dir recurse = before ++ path :: after →
  (∀ p, p ∈ before → is_ok (rasterio_open p) = true) →
  rasterio_open path = Err e →
  map_geometry_to_geotiffs gdf img_dir recurse = Err e.
Proof.
  intros Hstems Hname Hpaths Hbefore Hopen.
  unfold map_geometry_to_geotiffs. rewrite Hstems. cbn [mbind result_bind].
  rewrite Hpaths.
  rewrite (result_fold_err _ _ _ _ _ _ e (fold_tiles_Ok gdf before [] [] Hname Hbefore));
    [done|].
  unfold map_tile. by rewrite Hopen.
Qed.

(** What a pair appended for a tile is made of, in full *)
Lemma elem_of_tile_pairs_inv (gdf : GeoDataFrame) (path : string) (r : Row)
    (g : Geometry) :
  gdf_geometry_name gdf = "geometry" →
  (r, VGeom g) ∈ tile_pairs gdf path →
  ∃ src, rasterio_open path = Ok src ∧ r = tile_row path src
    ∧ (g = empty_polygon
       ∨ ∃ hit shape, hit ∈ gdf_rows gdf
           ∧ hit !! "geometry" = Some (VGeom shape)
           ∧ shapely.intersects shape (footprint src) = true
           ∧ g = shapely.intersection shape (footprint src)).
Proof.
  intros Hname. unfold tile_pairs. rewrite Hname.
  destruct (rasterio_open path) as [src|e]; [|by intros ?%elem_of_nil].
  intros Hin. exists src. split; [done|].
  destruct (decide (filter _ (gdf_rows gdf) = [])) as [Hnil|Hhits].
  - apply list_elem_of_singleton in Hin. injection Hin as -> ->. auto.
  - apply list_elem_of_fmap in Hin as (hit & [= -> Hg] & Hhit).
    split; [done|]. right.
    apply list_elem_of_filter in Hhit as [Hyes Hhit].
    apply Is_true_true, row_intersects_geometry in Hyes
      as (shape & Hshape & Hint & Hclip).
    rewrite Hclip in Hg. injection Hg as ->.
    exists hit, shape. done.
Qed.

(** X11: the output of the mapper has no two equal rows, and every row is
    the dictionary of a raster that passed the filter together with either
    the empty polygon or a part of the intersection of the raster's footprint
    with the geometry of a record that intersects it. *)
Theorem map_geometry_to_geotiffs_sound (gdf : GeoDataFrame)
    (img_dir : string) (recurse : bool) (orig_stems : list string) :
  orig_stems_of gdf = Ok orig_stems →
  gdf_geometry_name gdf = "geometry" →
  let image_paths := image_paths_of orig_stems img_dir recurse in
  (∀ path, path ∈ image_paths → is_ok (rasterio_open path) = true) →
  ∃ out,
    map_geometry_to_geotiffs gdf img_dir recurse = Ok out
    ∧ NoDup (gdf_rows out)
    ∧ ∀ row, row ∈ gdf_rows out →
        ∃ path src part,
          path ∈ image_paths
          ∧ rasterio_open path = Ok src
          ∧ row = <["geometry" := VGeom part]> (tile_row path src)
          ∧ (part = empty_polygon
             ∨ ∃ hit shape,
                 hit ∈ gdf_rows gdf
                 ∧ hit !! "geometry" = Some (VGeom shape)
                 ∧ shapely.intersects shape (footprint src) = true
                 ∧ part ∈ get_parts (shapely.intersection shape (footprint src))).
Proof.
  intros Hstems Hname image_paths Hopen.
  unfold map_geometry_to_geotiffs. rewrite Hstems. cbn [mbind result_bind].
  fold image_paths. rewrite (fold_tiles_Ok gdf image_paths [] [] Hname Hopen).
  cbn [mbind result_bind app]. fold (exploded gdf image_paths).
  eexists. split; [reflexivity|]. cbn [gdf_rows].
  split; [apply NoDup_drop_duplicates|].
  intros row Hrow. rewrite elem_of_drop_duplicates in Hrow.
  apply elem_of_exploded in Hrow as (path & r & g & part & Hpath & Hpair & Hpart & ->).
  destruct (elem_of_tile_pairs_inv gdf path r g Hname Hpair)
    as (src & Hsrc & -> & Hg).
  exists path, src, part. split; [done|]. split; [done|]. split; [done|].
  destruct Hg as [->|(hit & shape & Hhit & Hshape & Hint & ->)].
  - left. by apply list_elem_of_singleton in Hpart.
  - right. by exists hit, shape.
Qed.
End MapperErrors.

Section MetadataCount.
Context `{FS : FileSystem}.
Variable parse_filename : Row → result string.

Lemma copy_fields_other (field_map : list (string * string)) (row metadata metadata' : Row)
    (k : string) :
  k ∉ field_map.*1 →
  copy_fields field_map row metadata = Ok metadata' →
  metadata' !! k = metadata !! k.
Proof.
  revert metadata. induction field_map as [|[new_col old_col] field_map IH];
    intros metadata Hk; unfold copy_fields; simpl.
  { by intros [= <-]. }
  destruct (decide (is_Some (row !! old_col))); simpl; [|done].
  intros Hrest. apply not_elem_of_cons in Hk as [Hne Hk].
  rewrite (IH _ Hk Hrest). by rewrite lookup_insert_ne.
Qed.

Lemma path_seen_strings (rows : list Row) (path : string) :
  Forall (fun r => ∃ s, r !! "path" = Some (VStr s)) rows →
  path_seen rows path = false.
Proof.
  induction 1 as [|r rows [s Hs] _ IH]; [done|].
  unfold path_seen in *. simpl. rewrite IH, Hs. by rewrite bool_decide_eq_false_2.
Qed.

Lemma map_metadata_row_ready (images_dir : string)
    (field_map : list (string * string)) (rows : list Row) (geometry : list PyVal)
    (row : Row) :
  "path" ∉ field_map.*1 →
  Forall (fun r => ∃ s, r !! "path" = Some (VStr s)) rows →
  row_ready parse_filename images_dir field_map row →
  if has_file parse_filename images_dir row
  then ∃ metadata s,
         map_metadata_row parse_filename images_dir field_map (rows, geometry) row
         = Ok (rows ++ [metadata], geometry ++ [pandas.get row "geometry"])
         ∧ metadata !! "path" = Some (VStr s)
  else map_metadata_row parse_filename images_dir field_map (rows, geometry) row
       = Ok (rows, geometry).
Proof.
  intros Hpath Hrows (filename & Hfile & Hopen).
  unfold has_file, map_metadata_row. rewrite Hfile. cbn [mbind result_bind].
  destruct (path_exists (pathlib.joinpath images_dir filename)) eqn:Hex; [|done].
  destruct (Hopen eq_refl) as [Himg Hcols].
  rewrite (path_seen_strings rows _ Hrows).
  destruct (open_fn _ _) as [img|e]; [|done]. cbn [mbind result_bind].
  destruct img as [[w h]|ds]; cbv beta iota zeta;
    match goal with |- context [copy_fields field_map row ?m] =>
      destruct (copy_fields_present field_map row m Hcols) as [metadata' Hcopy];
      exists metadata', (pathlib.joinpath images_dir filename);
      rewrite Hcopy; (split; [done|]);
      rewrite (copy_fields_other _ _ _ _ "path" Hpath Hcopy);
      by simplify_map_eq
    end.
Qed.

Lemma map_metadata_fold_count (images_dir : string) (field_map : list (string * string))
    (todo rows : list Row) (geometry : list PyVal) :
  "path" ∉ field_map.*1 →
  Forall (fun r => ∃ s, r !! "path" = Some (VStr s)) rows →
  (∀ row, row ∈ todo → row_ready parse_filename images_dir field_map row) →
  ∃ rows' geometry',
    result_fold (map_metadata_row parse_filename images_dir field_map)
      (rows, geometry) todo = Ok (rows ++ rows', geometry ++ geometry')
    ∧ length rows' = length (filter (fun row => has_file parse_filename images_dir row) todo)
    ∧ length geometry' = length rows'.
Proof.
  intros Hpath. revert rows geometry.
  induction todo as [|row todo IH]; intros rows geometry Hrows Hready.
  { exists [], []. by rewrite !app_nil_r. }
  assert (Htodo : ∀ r, r ∈ todo → row_ready parse_filename images_dir field_map r)
    by (intros r Hr; apply Hready; by right).
  pose proof (map_metadata_row_ready images_dir field_map rows geometry row
                Hpath Hrows (Hready row (list_elem_of_here _ _))) as Hstep.
  cbn [result_fold]. rewrite filter_cons.
  destruct (has_file parse_filename images_dir row) eqn:Hhas.
  - destruct Hstep as (metadata & s & -> & Hm). cbn [mbind result_bind].
    destruct (IH (rows ++ [metadata]) (geometry ++ [pandas.get row "geometry"]))
      as (rows' & geometry' & Hfold & Hlen & Hgeo); [|done|].
    { apply Forall_app. split; [done|]. constructor; [by exists s|done]. }
    exists (metadata :: rows'), (pandas.get row "geometry" :: geometry').
    rewrite Hfold, <- !app_assoc. split; [done|].
    rewrite decide_True by exact I. simpl. lia.
  - rewrite Hstep. cbn [mbind result_bind].
    destruct (IH rows geometry) as (rows' & geometry' & Hfold & Hlen & Hgeo);
      [done..|].
    exists rows', geometry'. rewrite Hfold. split; [done|].
    rewrite decide_False by exact id. auto.
Qed.

(** X12: [map_metadata] returns one row for every source row whose file
    exists, rows without a file being passed over without an error.  Rows
    that share a file are all kept: the entry ["path"] of a kept row is a
    string, the duplicate test compares it with the path object, and the
    two are never equal. *)
Theorem map_metadata_row_count (gdf_src : GeoDataFrame) (images_dir : string)
    (preserve_fields : PreserveFields) :
  "path" ∉ (make_field_map preserve_fields).*1 →
  (∀ row, row ∈ gdf_rows gdf_src →
          row_ready parse_filename images_dir (make_field_map preserve_fields) row) →
  ∃ out,
    map_metadata parse_filename gdf_src images_dir preserve_fields = Ok out
    ∧ length (gdf_rows out) =
      length (filter (fun row => has_file parse_filename images_dir row)
                (gdf_rows gdf_src)).
Proof.
  intros Hpath Hready. unfold map_metadata.
  destruct (map_metadata_fold_count images_dir (make_field_map preserve_fields)
              (gdf_rows gdf_src) [] [] Hpath (Forall_nil_2 _) Hready)
    as (rows' & geometry' & Hfold & Hlen & Hgeo).
  rewrite Hfold. cbn [mbind result_bind app]. eexists. split; [reflexivity|].
  simpl. rewrite length_zip_with. lia.
Qed.

(** The values of the preserved columns under their new names *)
Lemma copy_fields_renames (field_map : list (string * string))
    (row metadata metadata' : Row) :
  NoDup field_map.*1 →
  copy_fields field_map row metadata = Ok metadata' →
  (∀ new_col old_col, (new_col, old_col) ∈ field_map →
                      is_Some (row !! old_col)
                      ∧ metadata' !! new_col = row !! old_col)
  ∧ (∀ k, k ∉ field_map.*1 → metadata' !! k = metadata !! k).
Proof.
  intros Hnd Hcopy. split; [|intros k Hk; by eapply copy_fields_other].
  revert metadata Hnd Hcopy.
  induction field_map as [|[n o] field_map IH]; intros metadata Hnd Hcopy new_col old_col Hin.
  { by apply elem_of_nil in Hin. }
  apply NoDup_cons in Hnd as [Hn Hnd].
  unfold copy_fields in Hcopy. simpl in Hcopy.
  destruct (decide (is_Some (row !! o))) as [[v Hv]|]; simpl in Hcopy; [|done].
  apply elem_of_cons in Hin as [[= -> ->]|Hin].
  - split; [by eexists|].
    rewrite (copy_fields_other _ _ _ _ n Hn Hcopy), lookup_insert_eq.
    unfold pandas.get. by rewrite Hv.
  - by eapply IH.
Qed.

Lemma dict_set_keys (k v : string) (entries : list (string * string)) :
  NoDup entries.*1 → NoDup (dict_set k v entries).*1
  ∧ ∀ c, c ∈ (dict_set k v entries).*1 ↔ c = k ∨ c ∈ entries.*1.
Proof.
  induction entries as [|[k' v'] entries IH]; intros Hnd; simpl.
  { split; [apply NoDup_singleton|]. intros c.
    rewrite list_elem_of_singleton, elem_of_nil. tauto. }
  apply NoDup_cons in Hnd as [Hk' Hnd]. destruct (IH Hnd) as [IHn IHm].
  destruct (decide (k = k')) as [->|Hne]; simpl.
  - split; [by apply NoDup_cons|]. intros c. rewrite !elem_of_cons. tauto.
  - split.
    + apply NoDup_cons. split; [|done]. rewrite IHm. intros [?|?]; [congruence|done].
    + intros c. rewrite !elem_of_cons, IHm. tauto.
Qed.

Lemma dict_update_keys (entries other : list (string * string)) :
  NoDup entries.*1 → NoDup (dict_update entries other).*1.
Proof.
  unfold dict_update. revert entries.
  induction other as [|[k v] other IH]; intros entries Hnd; [done|].
  simpl. apply IH. by apply dict_set_keys.
Qed.

(** The output names of the field map are distinct. *)
Lemma make_field_map_keys (preserve_fields : PreserveFields) :
  NoDup (make_field_map preserve_fields).*1.
Proof.
  destruct preserve_fields as [|entries|items]; simpl.
  - apply NoDup_nil_2.
  - apply dict_update_keys, NoDup_nil_2.
  - assert (Hgen : ∀ acc : list (string * string), NoDup acc.*1 →
      NoDup (foldl (fun field_map item =>
                      match item with
                      | ItemStr s => dict_set s s field_map
                      | ItemDict entries => dict_update field_map entries
                      | ItemOther => field_map
                      end) acc items).*1).
    { induction items as [|item items IH]; intros acc Hacc; [done|].
      simpl. apply IH. destruct item; [by apply dict_set_keys|by apply dict_update_keys|done]. }
    apply Hgen, NoDup_nil_2.
Qed.

(** X13: when the field check passes, every entry (new name, column) of the
    field map puts the row's value of the column under the new name, and
    the entries of the metadata under other names are left as they are. *)
Theorem preserved_fields_copied (preserve_fields : PreserveFields)
    (row metadata metadata' : Row) :
  copy_fields (make_field_map preserve_fields) row metadata = Ok metadata' →
  (∀ new_col old_col, (new_col, old_col) ∈ make_field_map preserve_fields →
                      is_Some (row !! old_col)
                      ∧ metadata' !! new_col = row !! old_col)
  ∧ (∀ k, k ∉ (make_field_map preserve_fields).*1 → metadata' !! k = metadata !! k).
Proof. apply copy_fields_renames, make_field_map_keys. Qed.
End MetadataCount.

(** ** Flattening of single-part groups, and the footprint *)

Section FlattenSingle.
Context `{E : shapely.Engine}.

Lemma omap_lookup_app (heap more : list Row) (refs : list nat) :
  Forall (fun ref => ref < length heap)%nat refs →
  omap (fun ref => (heap ++ more) !! ref) refs = omap (fun ref => heap !! ref) refs.
Proof.
  induction 1 as [|ref refs Href _ IH]; [done|].
  cbn [omap list_omap]. fold (@omap list _ nat Row).
  by rewrite IH, lookup_app_l.
Qed.

Lemma flatten_group_single (gname gc : string) (st : FlattenState)
    (group : list Row) :
  group ≠ [] →
  (∀ row, row ∈ group → is_Some (row !! gc)) →
  single_part_group gname group →
  refs_valid st →
  ∃ st',
    flatten_group gname gc st group = Ok st'
    ∧ refs_valid st'
    ∧ final_rows st' = final_rows st ++ (single_part_entry gname gc group).*1
    ∧ fs_geometry st' = fs_geometry st ++ (single_part_entry gname gc group).*2.
Proof.
  intros Hne Hgc [Hu Hn] Hvalid.
  destruct group as [|first rest]; [done|].
  assert (Hrow : template_row (first :: rest) 0 gc = Ok (delete gc first)).
  { destruct (template_row_Some (first :: rest) 0 gc Hgc) as (row & [= <-] & ->);
      [simpl; lia|done]. }
  assert (Helse : flatten_group gname gc st (first :: rest) =
    Ok (emit_bboxes (alloc (delete gc first) st).1
          (shapely.normalize (shapely.unary_union (pandas.geometry gname (first :: rest))))
          (alloc (delete gc first) st).2)).
  { unfold flatten_group.
    destruct (shapely.unary_union _); try done; rewrite Hrow; done. }
  rewrite Helse. eexists. split; [reflexivity|].
  unfold single_part_entry, emit_bboxes, get_polygon_bboxes. simpl alloc.
  cbn [fst snd fs_heap fs_rows fs_geometry fs_stdout].
  assert (Hkeep : refs_valid
            (mkFlattenState (fs_heap st ++ [delete gc first]) (fs_rows st)
               (fs_geometry st) (fs_stdout st ++ ["Unknown geometry type"]))
          ∧ final_rows
              (mkFlattenState (fs_heap st ++ [delete gc first]) (fs_rows st)
                 (fs_geometry st) (fs_stdout st ++ ["Unknown geometry type"]))
            = final_rows st).
  { split.
    - unfold refs_valid in *. simpl. rewrite length_app.
      eapply Forall_impl; [exact Hvalid|]. simpl. intros; lia.
    - unfold final_rows. simpl. by apply omap_lookup_app. }
  destruct (shapely.normalize _) as [| | |p| | |parts|]; try done;
    try (simpl; rewrite !app_nil_r; destruct Hkeep; done).
  simpl. unfold emit, refs_valid, final_rows. simpl.
  rewrite alter_app_r_alt by done. rewrite Nat.sub_diag. simpl.
  split; [|split; [|done]].
  - rewrite length_app. simpl. apply Forall_app. split.
    + eapply Forall_impl; [exact Hvalid|]. simpl. intros; lia.
    + constructor; [lia|done].
  - rewrite omap_app. simpl. rewrite list_lookup_middle by done.
    f_equal. by apply omap_lookup_app.
Qed.

Lemma flatten_loop_single (gname gc : string) (groups : list (list Row))
    (st : FlattenState) :
  (∀ group, group ∈ groups →
     group ≠ [] ∧ (∀ row, row ∈ group → is_Some (row !! gc))
     ∧ single_part_group gname group) →
  refs_valid st →
  ∃ st',
    result_fold (flatten_group gname gc) st groups = Ok st'
    ∧ final_rows st' =
      final_rows st ++ (groups ≫= single_part_entry gname gc).*1
    ∧ fs_geometry st' =
      fs_geometry st ++ (groups ≫= single_part_entry gname gc).*2.
Proof.
  revert st. induction groups as [|group groups IH]; intros st Hgroups Hvalid.
  { exists st. simpl. by rewrite !app_nil_r. }
  destruct (Hgroups group) as (Hne & Hgc & Hsingle); [by left|].
  destruct (flatten_group_single gname gc st group Hne Hgc Hsingle Hvalid)
    as (st1 & Hstep & Hvalid1 & Hrows1 & Hgeo1).
  destruct (IH st1) as (st' & Hfold & Hrows & Hgeo); [|done|].
  { intros g Hg. apply Hgroups. by right. }
  exists st'. cbn [result_fold]. rewrite Hstep. cbn [mbind result_bind].
  rewrite Hfold, Hrows, Hgeo, Hrows1, Hgeo1, bind_cons, !fmap_app, !app_assoc.
  done.
Qed.

(** X14: when no union is multi-part, the output has one row for every
    group whose normalized union is a polygon, in the order of the groups:
    the attributes of the group's first member without the geometry column,
    the box of the union under ["bbox"], which is [None] when the union is
    an empty polygon, and the normalized union as geometry.  A group whose
    union is of another kind adds no row. *)
Theorem flatten_polygons_single_parts (gdf_src : GeoDataFrame)
    (geometry_column : string) (group_by : pandas.GroupBy)
    (groups : list (list PyVal * list Row)) :
  pandas.groupby (gdf_rows gdf_src) group_by = Ok groups →
  (∀ row, row ∈ gdf_rows gdf_src → is_Some (row !! geometry_column)) →
  (∀ group, group ∈ groups.*2 →
            single_part_group (gdf_geometry_name gdf_src) group) →
  let entries :=
    groups.*2 ≫= single_part_entry (gdf_geometry_name gdf_src) geometry_column in
  flatten_polygons gdf_src geometry_column group_by =
  Ok (pandas.GeoDataFrame_of entries.*1 (VGeom <$> entries.*2) (gdf_crs gdf_src)).
Proof.
  intros Hgroups Hgc Hsingle entries.
  pose proof (groupby_groups _ _ _ Hgroups) as Hwf.
  unfold flatten_polygons, flatten_polygons_loop. rewrite Hgroups.
  cbn [mbind result_bind].
  destruct (flatten_loop_single (gdf_geometry_name gdf_src) geometry_column
              groups.*2 (mkFlattenState [] [] [] []))
    as (st' & Hfold & Hrows & Hgeo).
  { intros group Hg. destruct (Hwf group Hg) as [Hne Hin].
    split; [done|]. split; [|by apply Hsingle].
    intros row Hrow. apply Hgc, Hin, Hrow. }
  { constructor. }
  rewrite Hfold. cbn [mbind result_bind]. by rewrite Hrows, Hgeo.
Qed.

(** X15: when the first member of the first group has no column named
    [geometry_column] (and the union of the group has at least one part),
    the call raises the [KeyError] of that name. *)
Theorem flatten_polygons_missing_geometry_column (gdf_src : GeoDataFrame)
    (geometry_column : string) (group_by : pandas.GroupBy)
    (key : list PyVal) (first : Row) (rest : list Row)
    (groups : list (list PyVal * list Row)) :
  pandas.groupby (gdf_rows gdf_src) group_by = Ok ((key, first :: rest) :: groups) →
  first !! geometry_column = None →
  shapely.unary_union (pandas.geometry (gdf_geometry_name gdf_src) (first :: rest))
    ≠ GMultiPolygon [] →
  flatten_polygons gdf_src geometry_column group_by = Err (KeyError geometry_column).
Proof.
  intros Hgroups Hnone Hunion.
  unfold flatten_polygons, flatten_polygons_loop. rewrite Hgroups.
  cbn [mbind result_bind fmap list_fmap snd result_fold].
  assert (Hrow : template_row (first :: rest) 0 geometry_column
                 = Err (KeyError geometry_column)).
  { unfold template_row, pandas.iloc, pandas.drop. simpl. by rewrite Hnone. }
  assert (Hgroup : ∀ st, flatten_group (gdf_geometry_name gdf_src) geometry_column st
                           (first :: rest) = Err (KeyError geometry_column)).
  { intros st. unfold flatten_group.
    destruct (shapely.unary_union _) as [| | | | | |parts|]; try (by rewrite Hrow).
    destruct parts as [|p parts]; [done|].
    simpl. unfold flatten_part at 1. by rewrite Hrow. }
  by rewrite Hgroup.
Qed.
End FlattenSingle.

(** X16: the footprint of a window of w by h pixels that starts at the
    origin of the raster, as the window of the full extent does, is the
    image under the raster's own transform of the corners (0, 0), (w, 0),
    (w, h), (0, h), closed by the first: at the origin the window transform
    is the transform of the dataset. *)
Theorem create_tile_polygon_dataset_corners (src : rasterio.Dataset)
    (tile_window : rasterio.Window) :
  rasterio.col_off tile_window = 0%Z →
  rasterio.row_off tile_window = 0%Z →
  let t := rasterio.transform src in
  let w := inject_Z (rasterio.width tile_window) in
  let h := inject_Z (rasterio.height tile_window) in
  ∃ ring,
    create_tile_polygon src tile_window = GPolygon (mkPolygon ring [])
    ∧ Forall2 coord_eq ring
        (rasterio.apply t <$> [(0, 0); (w, 0); (w, h); (0, h); (0, 0)]%Q).
Proof.
  destruct src as [W H [ta tb tc td te tf]], tile_window as [co ro w h].
  simpl. intros -> ->. eexists. split; [reflexivity|].
  repeat constructor; unfold rasterio.apply; simpl; ring.
Qed.

(** ** Instances of the further statements *)

Lemma map_geometry_to_geotiffs_missing_filename_witness :
  map_geometry_to_geotiffs (E := boxes.engine) (FS := two_tiles)
    (mkGeoDataFrame [<["geometry" := VGeom (GPolygon unit_a)]> ∅] "geometry" None)
    "/img" true = Err (KeyError "filename").
Proof.
  apply (map_geometry_to_geotiffs_missing_filename (E := boxes.engine)
           (FS := two_tiles)).
  eexists. split; [left|]. vm_compute. reflexivity.
Defined.

Lemma map_geometry_to_geotiffs_open_error_witness :
  map_geometry_to_geotiffs (E := boxes.engine) (FS := one_broken_tile)
    two_records "/img" true = Err OSError.
Proof.
  apply (map_geometry_to_geotiffs_open_error (E := boxes.engine)
           (FS := one_broken_tile) two_records "/img" true ["s1"]
           ["/img/s1.tif"] [] "/img/s1_bad.tif" OSError).
  - vm_compute. reflexivity.
  - reflexivity.
  - vm_compute. reflexivity.
  - intros p Hp. apply list_elem_of_singleton in Hp. subst p.
    vm_compute. reflexivity.
  - vm_compute. reflexivity.
Defined.

Lemma map_geometry_to_geotiffs_sound_witness :
  ∃ out,
    map_geometry_to_geotiffs (E := boxes.engine) (FS := two_tiles)
      two_records "/img" true = Ok out
    ∧ NoDup (gdf_rows out).
Proof.
  destruct (map_geometry_to_geotiffs_sound (E := boxes.engine) (FS := two_tiles)
              two_records "/img" true ["s1"]) as (out & Hout & Hnd & _).
  - vm_compute. reflexivity.
  - reflexivity.
  - intros path Hpath.
    change (path ∈ ["/img/s1.tif"; "/img/s1_far.tif"]) in Hpath.
    apply elem_of_cons in Hpath as [->|Hpath]; [vm_compute; reflexivity|].
    apply list_elem_of_singleton in Hpath. subst path. vm_compute. reflexivity.
  - by exists out.
Defined.

Lemma map_metadata_row_count_witness :
  ∃ out,
    map_metadata (FS := two_tiles) filename_column two_records "/img"
      (FieldsList [ItemStr "site"]) = Ok out
    ∧ length (gdf_rows out) = 2%nat.
Proof.
  destruct (map_metadata_row_count (FS := two_tiles) filename_column two_records
              "/img" (FieldsList [ItemStr "site"])) as (out & Hout & Hlen).
  - change ("path" ∉ ["site"]). intros Hin.
    apply list_elem_of_singleton in Hin. discriminate Hin.
  - intros row Hrow. exists "s1.tif".
    assert (Hcols : ∀ col, col ∈ ["site"] → is_Some (row !! col)).
    { intros col Hcol. apply list_elem_of_singleton in Hcol. subst col.
      apply elem_of_cons in Hrow as [->|Hrow]; [vm_compute; eauto|].
      apply list_elem_of_singleton in Hrow. subst row. vm_compute. eauto. }
    apply elem_of_cons in Hrow as [->|Hrow];
      [|apply list_elem_of_singleton in Hrow; subst row];
      (split; [vm_compute; reflexivity|]); intros _;
      (split; [vm_compute; reflexivity|exact Hcols]).
  - exists out. split; [exact Hout|]. rewrite Hlen. vm_compute. reflexivity.
Defined.

Lemma preserved_fields_copied_witness :
  (<["place" := VStr "s1"]> ∅ : Row) !! "place" =
  record "s1" (GPolygon unit_a) !! "site".
Proof.
  refine (proj2 (proj1 (preserved_fields_copied (FieldsDict [("place", "site")])
                          (record "s1" (GPolygon unit_a)) ∅
                          (<["place" := VStr "s1"]> ∅) _) "place" "site" _)).
  - vm_compute. reflexivity.
  - left.
Defined.

Lemma flatten_polygons_single_parts_witness :
  ∃ out,
    flatten_polygons (E := boxes.engine) two_sites "geometry"
      (pandas.ByColumn "site") = Ok out
    ∧ length (gdf_rows out) = 2%nat.
Proof.
  eexists. split.
  - apply (flatten_polygons_single_parts (E := boxes.engine) two_sites "geometry"
             (pandas.ByColumn "site")
             [([VStr "s1"], [record "s1" (GPolygon unit_a)]);
              ([VStr "s2"], [record "s2" (GPolygon unit_b)])]).
    + vm_compute. reflexivity.
    + intros row Hrow.
      apply elem_of_cons in Hrow as [->|Hrow]; [vm_compute; eauto|].
      apply list_elem_of_singleton in Hrow. subst row. vm_compute. eauto.
    + intros group Hgroup.
      apply elem_of_cons in Hgroup as [->|Hgroup];
        [|apply list_elem_of_singleton in Hgroup; subst group];
        split; vm_compute; reflexivity.
  - vm_compute. reflexivity.
Defined.

Lemma flatten_polygons_missing_geometry_column_witness :
  flatten_polygons (E := boxes.engine) two_records "geom"
    (pandas.ByColumn "site") = Err (KeyError "geom").
Proof.
  apply (flatten_polygons_missing_geometry_column (E := boxes.engine) two_records
           "geom" (pandas.ByColumn "site") [VStr "s1"]
           (record "s1" (GPolygon unit_a)) [record "s1" (GPolygon unit_b)] []).
  - vm_compute. reflexivity.
  - vm_compute. reflexivity.
  - vm_compute. discriminate.
Defined.

(** ** Failing merges and the directory without a matching raster *)

Section MergeFailure.
Context `{E : shapely.Engine}.

(** X17: a union without parts ends the merge.  When the coverage union of
    the first two parts is a geometry that has no parts to read, a single
    polygon among them, or when it fails, flattening raises that error
    whatever the other parts are. *)
Theorem get_geom_polygons_flatten_raises (p q : Polygon) (others : list Polygon)
    (e : exception) :
  (shapely.coverage_union (shapely.normalize (GPolygon p))
     (shapely.normalize (GPolygon q)) ≫= geoms) = Err e →
  get_geom_polygons (GMultiPolygon (p :: q :: others)) true = Err e.
Proof.
  intros Hu. simpl. unfold merge_step at 2. simpl.
  unfold merge_step at 1. simpl.
  destruct (shapely.coverage_union _ _) as [union|e']; simpl in *.
  - by rewrite Hu.
  - by injection Hu as ->.
Qed.
End MergeFailure.

Section MapperEmpty.
Context `{E : shapely.Engine} `{FS : FileSystem}.

(** X18: when the frame has records and none of the rasters of the
    directory passes the file-name filter, no raster is opened and the
    mapper returns the frame without rows, with the reference system of
    the input. *)
Theorem map_geometry_to_geotiffs_no_raster (gdf : GeoDataFrame)
    (img_dir : string) (recurse : bool) (orig_stems : list string) :
  gdf_rows gdf ≠ [] →
  orig_stems_of gdf = Ok orig_stems →
  image_paths_of orig_stems img_dir recurse = [] →
  map_geometry_to_geotiffs gdf img_dir recurse =
  Ok (mkGeoDataFrame [] "geometry" (gdf_crs gdf)).
Proof.
  intros _ Hstems Hpaths. unfold map_geometry_to_geotiffs.
  rewrite Hstems. cbn [mbind result_bind]. rewrite Hpaths. reflexivity.
Qed.
End MapperEmpty.

Lemma create_tile_polygon_dataset_corners_witness :
  ∃ ring,
    create_tile_polygon (tile_at 100 100) (rasterio.mkWindow 0 0 10 10) =
      GPolygon (mkPolygon ring [])
    ∧ Forall2 coord_eq ring
        [(100, 100); (110, 100); (110, 110); (100, 110); (100, 100)]%Q.
Proof.
  destruct (create_tile_polygon_dataset_corners (tile_at 100 100)
              (rasterio.mkWindow 0 0 10 10) eq_refl eq_refl)
    as (ring & Hring & Hcorners).
  exists ring. split; [exact Hring|].
  eapply Forall2_impl; [exact Hcorners|].
  intros p q Hpq. exact Hpq.
Defined.

Lemma get_geom_polygons_flatten_raises_witness :
  get_geom_polygons (E := boxes.merging_engine units_rectangle)
    (GMultiPolygon [unit_a; unit_right; unit_b]) true = Err (AttributeError "geoms").
Proof.
  apply (get_geom_polygons_flatten_raises (E := boxes.merging_engine units_rectangle)).
  reflexivity.
Defined.

Lemma map_geometry_to_geotiffs_no_raster_witness :
  map_geometry_to_geotiffs (E := boxes.engine) (FS := one_broken_tile)
    other_site "/img" true =
  Ok (mkGeoDataFrame [] "geometry" (Some "EPSG:4326")).
Proof.
  apply (map_geometry_to_geotiffs_no_raster (E := boxes.engine)
           (FS := one_broken_tile) other_site "/img" true ["q9"]).
  - discriminate.
  - vm_compute. reflexivity.
  - vm_compute. reflexivity.
Defined.
